(** * dingtalk-moltbot-connector: a shallow embedding and its properties

    The development follows the package's modules:
    - [config]    : [ConnectorConfig], its three-source resolver and [validate];
    - [media]     : the access-token cache and the media system prompt;
    - [handler]   : the SSE streaming adapter and the card / text renderer;
    - [connector] : [MoltbotConnector.__init__], [from_env] and [start].

    Python values that reach the code from JSON keep their dynamic type
    ([pyval]); exceptions are values of [exn] carried by [outcome]. *)

From Stdlib Require Import ZArith String Ascii List Bool Lia.
From Stdlib Require Import PrimFloat SpecFloat FloatOps.
From stdpp Require Import base option list gmap strings pretty.

Local Open Scope Z_scope.
Set Warnings "-register-all".
Set Default Proof Using "Type".

(* ===================================================================== *)
(** ** Python values, exceptions, and the operations the sources use     *)
(* ===================================================================== *)

(** What [json.loads] can return, with Python's own types. A [dict] keeps
    its items as an association list with one entry per key. *)
Inductive pyval : Type :=
| PNone
| PBool (b : bool)
| PInt (z : Z)
| PFloat (f : float)
| PStr (s : string)
| PList (l : list pyval)
| PDict (d : list (string * pyval)).

Inductive exn_class : Type :=
| ValueError
| JSONDecodeError
| RuntimeError
| AttributeError
| KeyError
| IndexError
| TypeError
| OverflowError
| OtherException (name : string).

(** An exception: its class and [str(e)]. *)
Record exn : Type := Exn { exn_cls : exn_class; exn_str : string }.

Inductive outcome (A : Type) : Type :=
| Returns (a : A)
| Raises (e : exn).
Arguments Returns {A} a.
Arguments Raises {A} e.

Definition bind {A B : Type} (m : outcome A) (k : A -> outcome B) : outcome B :=
  match m with
  | Returns a => k a
  | Raises e => Raises e
  end.

Declare Scope py_scope.
Delimit Scope py_scope with py.
Notation "x <- m ;; k" := (bind m (fun x => k))
  (at level 100, m at next level, right associativity) : py_scope.

Definition dq : string := String (ascii_of_nat 34) EmptyString.
Definition sq : string := String (ascii_of_nat 39) EmptyString.
Definition nl : string := String (ascii_of_nat 10) EmptyString.

(** [type(v).__name__] *)
Definition type_name (v : pyval) : string :=
  match v with
  | PNone => "NoneType"
  | PBool _ => "bool"
  | PInt _ => "int"
  | PFloat _ => "float"
  | PStr _ => "str"
  | PList _ => "list"
  | PDict _ => "dict"
  end.

(** [bool(v)] *)
Definition truthy (v : pyval) : bool :=
  match v with
  | PNone => false
  | PBool b => b
  | PInt z => negb (z =? 0)
  | PFloat f => negb (PrimFloat.eqb f 0)
  | PStr s => negb (String.eqb s "")
  | PList l => match l with [] => false | _ => true end
  | PDict d => match d with [] => false | _ => true end
  end.

(** [v == 0] *)
Definition py_eq_zero (v : pyval) : bool :=
  match v with
  | PBool b => negb b
  | PInt z => z =? 0
  | PFloat f => PrimFloat.eqb f 0
  | _ => false
  end.

Fixpoint dict_lookup (d : list (string * pyval)) (key : string) : option pyval :=
  match d with
  | [] => None
  | (k, v) :: rest => if String.eqb k key then Some v else dict_lookup rest key
  end.

(** [v.get(key, dflt)]: a [dict] method; any other JSON type has no [get]. *)
Definition py_get (v : pyval) (key : string) (dflt : pyval) : outcome pyval :=
  match v with
  | PDict d => Returns (default dflt (dict_lookup d key))
  | _ => Raises (Exn AttributeError
                   (sq +:+ type_name v +:+ sq +:+ " object has no attribute " +:+ sq +:+ "get" +:+ sq))
  end.

(** Number of bytes of the UTF-8 sequence that starts with byte [c]. *)
Definition utf8_width (c : ascii) : nat :=
  let n := nat_of_ascii c in
  if (n <? 192)%nat then 1%nat
  else if (n <? 224)%nat then 2%nat
  else if (n <? 240)%nat then 3%nat else 4%nat.

(** [v[0]] *)
Definition py_item0 (v : pyval) : outcome pyval :=
  match v with
  | PList (x :: _) => Returns x
  | PList [] => Raises (Exn IndexError "list index out of range")
  | PStr (String c rest) => Returns (PStr (String c (String.substring 0 (utf8_width c - 1) rest)))
  | PStr EmptyString => Raises (Exn IndexError "string index out of range")
  | PDict _ => Raises (Exn KeyError "0")
  | _ => Raises (Exn TypeError (sq +:+ type_name v +:+ sq +:+ " object is not subscriptable"))
  end.

(** [int] to [float], as CPython converts an operand: correctly rounded,
    [OverflowError] when the integer is out of the range of a double. *)
Definition float_of_int (z : Z) : outcome float :=
  let f := SF2Prim (binary_normalize prec emax z 0 false) in
  if PrimFloat.is_infinity f
  then Raises (Exn OverflowError "int too large to convert to float")
  else Returns f.

(** [f + v] for a float [f] *)
Definition py_float_add (f : float) (v : pyval) : outcome float :=
  match v with
  | PFloat g => Returns (f + g)%float
  | PInt z => (g <- float_of_int z ;; Returns (f + g)%float)%py
  | PBool b => Returns (f + (if b then 1 else 0))%float
  | _ => Raises (Exn TypeError
                   ("unsupported operand type(s) for +: " +:+ sq +:+ "float" +:+ sq
                    +:+ " and " +:+ sq +:+ type_name v +:+ sq))
  end.

(** [acc += chunk] for a string [acc] *)
Definition py_str_iadd (acc : string) (chunk : pyval) : outcome string :=
  match chunk with
  | PStr s => Returns (acc +:+ s)
  | _ => Raises (Exn TypeError
                   ("can only concatenate str (not " +:+ dq +:+ type_name chunk +:+ dq +:+ ") to str"))
  end.

(* ===================================================================== *)
(** ** config.py                                                          *)
(* ===================================================================== *)

Module config.

Definition _UNSET : string := "__UNSET__".

(** field name -> (environment variable, default) *)
Definition _ENV_DEFAULTS : list (string * (string * string)) :=
  [ ("dingtalk_client_id", ("DINGTALK_CLIENT_ID", ""));
    ("dingtalk_client_secret", ("DINGTALK_CLIENT_SECRET", ""));
    ("gateway_url", ("MOLTBOT_GATEWAY_URL", "http://127.0.0.1:18789"));
    ("model", ("MOLTBOT_MODEL", "default"));
    ("gateway_token", ("MOLTBOT_GATEWAY_TOKEN", "")) ].

Record ConnectorConfig : Type := {
  dingtalk_client_id : string;
  dingtalk_client_secret : string;
  gateway_url : string;
  model : string;
  system_prompt : string;
  enable_media_upload : bool;
  timeout : float;
  gateway_token : string
}.

(** The keyword arguments of the dataclass constructor; [None] is an
    argument the caller left out. *)
Record ConnectorConfig_args : Type := {
  arg_dingtalk_client_id : option string;
  arg_dingtalk_client_secret : option string;
  arg_gateway_url : option string;
  arg_model : option string;
  arg_system_prompt : option string;
  arg_enable_media_upload : option bool;
  arg_timeout : option float;
  arg_gateway_token : option string
}.

Definition no_args : ConnectorConfig_args :=
  {| arg_dingtalk_client_id := None; arg_dingtalk_client_secret := None;
     arg_gateway_url := None; arg_model := None; arg_system_prompt := None;
     arg_enable_media_upload := None; arg_timeout := None; arg_gateway_token := None |}.

(** The string argument the caller supplied for the field [attr]. *)
Definition supplied (args : ConnectorConfig_args) (attr : string) : option string :=
  if String.eqb attr "dingtalk_client_id" then arg_dingtalk_client_id args
  else if String.eqb attr "dingtalk_client_secret" then arg_dingtalk_client_secret args
  else if String.eqb attr "gateway_url" then arg_gateway_url args
  else if String.eqb attr "model" then arg_model args
  else if String.eqb attr "system_prompt" then arg_system_prompt args
  else if String.eqb attr "gateway_token" then arg_gateway_token args
  else None.

(** [getattr(self, attr)] on the string fields *)
Definition getattr (self : ConnectorConfig) (attr : string) : string :=
  if String.eqb attr "dingtalk_client_id" then dingtalk_client_id self
  else if String.eqb attr "dingtalk_client_secret" then dingtalk_client_secret self
  else if String.eqb attr "gateway_url" then gateway_url self
  else if String.eqb attr "model" then model self
  else if String.eqb attr "system_prompt" then system_prompt self
  else if String.eqb attr "gateway_token" then gateway_token self
  else "".

(** [setattr(self, attr, v)] on the string fields *)
Definition setattr (self : ConnectorConfig) (attr : string) (v : string) : ConnectorConfig :=
  let '{| dingtalk_client_id := i; dingtalk_client_secret := s; gateway_url := u;
          model := m; system_prompt := p; enable_media_upload := e; timeout := t;
          gateway_token := g |} := self in
  if String.eqb attr "dingtalk_client_id" then
    {| dingtalk_client_id := v; dingtalk_client_secret := s; gateway_url := u; model := m;
       system_prompt := p; enable_media_upload := e; timeout := t; gateway_token := g |}
  else if String.eqb attr "dingtalk_client_secret" then
    {| dingtalk_client_id := i; dingtalk_client_secret := v; gateway_url := u; model := m;
       system_prompt := p; enable_media_upload := e; timeout := t; gateway_token := g |}
  else if String.eqb attr "gateway_url" then
    {| dingtalk_client_id := i; dingtalk_client_secret := s; gateway_url := v; model := m;
       system_prompt := p; enable_media_upload := e; timeout := t; gateway_token := g |}
  else if String.eqb attr "model" then
    {| dingtalk_client_id := i; dingtalk_client_secret := s; gateway_url := u; model := v;
       system_prompt := p; enable_media_upload := e; timeout := t; gateway_token := g |}
  else if String.eqb attr "system_prompt" then
    {| dingtalk_client_id := i; dingtalk_client_secret := s; gateway_url := u; model := m;
       system_prompt := v; enable_media_upload := e; timeout := t; gateway_token := g |}
  else if String.eqb attr "gateway_token" then
    {| dingtalk_client_id := i; dingtalk_client_secret := s; gateway_url := u; model := m;
       system_prompt := p; enable_media_upload := e; timeout := t; gateway_token := v |}
  else self.

(** [os.environ.get(key, "")] *)
Definition os_environ_get (environ : gmap string string) (key : string) : string :=
  default "" (environ !! key).

(** One turn of the loop of [__post_init__]; the second component records
    the environment variables that were read. *)
Definition post_init_step (environ : gmap string string)
    (st : ConnectorConfig * list string) (entry : string * (string * string))
    : ConnectorConfig * list string :=
  let '(self, reads) := st in
  let '(attr, (env_key, dflt)) := entry in
  if String.eqb (getattr self attr) _UNSET then
    let env_val := os_environ_get environ env_key in
    (setattr self attr (if String.eqb env_val "" then dflt else env_val), reads ++ [env_key])
  else (self, reads).

Definition __post_init__ (environ : gmap string string) (self : ConnectorConfig)
    : ConnectorConfig * list string :=
  fold_left (post_init_step environ) _ENV_DEFAULTS (self, []).

(** The constructor call: the generated [__init__] fills the fields
    from the arguments or the declared defaults, then runs [__post_init__]. *)
Definition ConnectorConfig_init (environ : gmap string string) (args : ConnectorConfig_args)
    : ConnectorConfig * list string :=
  __post_init__ environ
    {| dingtalk_client_id := default _UNSET (arg_dingtalk_client_id args);
       dingtalk_client_secret := default _UNSET (arg_dingtalk_client_secret args);
       gateway_url := default _UNSET (arg_gateway_url args);
       model := default _UNSET (arg_model args);
       system_prompt := default "" (arg_system_prompt args);
       enable_media_upload := default true (arg_enable_media_upload args);
       timeout := default 120%float (arg_timeout args);
       gateway_token := default _UNSET (arg_gateway_token args) |}.

(** [ConnectorConfig.from_env()] *)
Definition from_env (environ : gmap string string) : ConnectorConfig * list string :=
  ConnectorConfig_init environ no_args.

(** [str.rstrip("/")] *)
Fixpoint rstrip_slash (s : string) : string :=
  match s with
  | EmptyString => EmptyString
  | String c rest =>
      match rstrip_slash rest with
      | EmptyString => if Ascii.eqb c "/" then EmptyString else String c EmptyString
      | r => String c r
      end
  end.

Definition api_url (self : ConnectorConfig) : string :=
  let base := rstrip_slash (gateway_url self) in
  base +:+ "/v1/chat/completions".

Definition validate (self : ConnectorConfig) : outcome unit :=
  if String.eqb (dingtalk_client_id self) "" then
    Raises (Exn ValueError
      ("缺少 dingtalk_client_id，" +:+ "请通过构造参数或环境变量 DINGTALK_CLIENT_ID 配置"))
  else if String.eqb (dingtalk_client_secret self) "" then
    Raises (Exn ValueError
      ("缺少 dingtalk_client_secret，" +:+ "请通过构造参数或环境变量 DINGTALK_CLIENT_SECRET 配置"))
  else Returns tt.

End config.

(* ===================================================================== *)
(** ** media.py                                                           *)
(* ===================================================================== *)

Module media.

(** What [httpx.get] returned; [resp.json()] decodes [text]. *)
Record http_response : Type := { status_code : Z; text : string }.

(** The query parameters of one request to the token endpoint
    [https://oapi.dingtalk.com/gettoken]. *)
Record token_request : Type := { appkey : string; appsecret : string }.

(** What one call of [get_dingtalk_access_token] reads from the outside:
    [time.time()] at the validity test, the outcome of [httpx.get], and
    [time.time()] when the entry is stored. *)
Record io : Type := {
  clock_at_check : float;
  gettoken : outcome http_response;
  clock_at_store : float
}.

(** What the body of the [try] block computed. *)
Inductive fetched : Type :=
| Issued (token : pyval) (expires_at : float)
| Refused (data : pyval).

(** The result of a call: the returned value (or the exception that
    escapes), the module-level [_token_cache] afterwards, and the requests
    that went to the network. *)
Record token_result : Type := {
  returned : outcome pyval;
  cache_after : gmap string (pyval * float);
  requests : list token_request
}.

Section runtime.

(** [json.loads] and [str()] of a value that is not a [str] are Python's. *)
Variable json_loads : string -> outcome pyval.
Variable py_str : pyval -> string.

(** [f"{v}"] *)
Definition format_value (v : pyval) : string :=
  match v with
  | PStr s => s
  | _ => py_str v
  end.

Definition fetch_token (w : io) : outcome fetched :=
  (resp <- gettoken w ;;
   data <- json_loads (text resp) ;;
   errcode <- py_get data "errcode" PNone ;;
   if py_eq_zero errcode then
     token <- py_get data "access_token" (PStr "") ;;
     expires_in <- py_get data "expires_in" (PInt 7200) ;;
     t <- py_float_add (clock_at_store w) expires_in ;;
     Returns (Issued token (t - 300)%float)
   else Returns (Refused data))%py.

Definition get_dingtalk_access_token (w : io) (_token_cache : gmap string (pyval * float))
    (client_id client_secret : string) : token_result :=
  let cache_key := client_id in
  let valid :=
    match _token_cache !! cache_key with
    | Some (token, expires_at) =>
        if (clock_at_check w <? expires_at)%float then Some token else None
    | None => None
    end in
  match valid with
  | Some token =>
      {| returned := Returns token; cache_after := _token_cache; requests := [] |}
  | None =>
      let request := {| appkey := client_id; appsecret := client_secret |} in
      match fetch_token w with
      | Returns (Issued token expires_at) =>
          {| returned := Returns token;
             cache_after := <[cache_key := (token, expires_at)]> _token_cache;
             requests := [request] |}
      | Returns (Refused _) =>
          {| returned := Returns PNone; cache_after := _token_cache; requests := [request] |}
      | Raises _ =>
          {| returned := Returns PNone; cache_after := _token_cache; requests := [request] |}
      end
  end.

(** The instructional template with the token formatted in. *)
Definition media_prompt (access_token : string) : string :=
  "## 钉钉图片显示规则（强制）

你正在钉钉中与用户对话。钉钉**只能显示已上传的图片**，无法显示本地路径。

### 禁止使用

- `file://` 路径
- `attachment://` 路径
- `/tmp/xxx.jpg` 等本地路径
- `https://static.dingtalk.com/media/xxx` 等猜测的 URL
- 任何未经上传的图片链接

### 正确方式

**任何时候**需要向用户展示图片，都必须：

1. **先上传**：执行 curl 命令上传到钉钉
2. **确认成功**：检查返回的 media_id
3. **再回复**：用 media_id 构造 markdown 图片

### 上传命令

```bash
curl -s -X POST " +:+ dq +:+ "https://oapi.dingtalk.com/media/upload?access_token=" +:+ access_token +:+ "&type=image" +:+ dq +:+ " -F " +:+ dq +:+ "media=@/实际图片路径.jpg" +:+ dq +:+ "
```

### 返回格式

```json
{" +:+ dq +:+ "errcode" +:+ dq +:+ ":0," +:+ dq +:+ "errmsg" +:+ dq +:+ ":" +:+ dq +:+ "ok" +:+ dq +:+ "," +:+ dq +:+ "media_id" +:+ dq +:+ ":" +:+ dq +:+ "@lADPxxxxxx" +:+ dq +:+ "}
```

### 回复格式

```markdown
![描述](@lADPxxxxxx)
```

**注意**：media_id 以 `@` 开头，直接使用，不拼接任何 URL 前缀。

### 工作流程示例

用户说" +:+ dq +:+ "拍张照" +:+ dq +:+ "：
1. 执行拍照，得到 `/tmp/camera-snap-xxx.jpg`
2. 执行: `curl -s -X POST " +:+ dq +:+ "https://oapi.dingtalk.com/media/upload?access_token=" +:+ access_token +:+ "&type=image" +:+ dq +:+ " -F " +:+ dq +:+ "media=@/tmp/camera-snap-xxx.jpg" +:+ dq +:+ "`
3. 从返回中提取 `media_id`（如 `@lADPxxxxxx`）
4. 回复: `这是拍摄的照片：![照片](@lADPxxxxxx)`

**关键**：必须等 curl 执行成功并拿到 media_id 后，才能回复包含图片的消息！
".

Definition build_media_system_prompt (w : io) (_token_cache : gmap string (pyval * float))
    (client_id client_secret : string) : outcome string * token_result :=
  let r := get_dingtalk_access_token w _token_cache client_id client_secret in
  ((access_token <- returned r ;;
    if negb (truthy access_token) then Returns ""
    else Returns (media_prompt (format_value access_token)))%py, r).

End runtime.

End media.

(* ===================================================================== *)
(** ** handler.py                                                         *)
(* ===================================================================== *)

Module handler.

Import config.

Record message : Type := { role : string; content : string }.

(** The JSON body of the request to the gateway. *)
Record payload : Type := {
  payload_model : string;
  messages : list message;
  stream : bool
}.

(** The POST issued through [client.stream]. *)
Record gateway_request : Type := {
  url : string;
  headers : list (string * string);
  json : payload;
  client_timeout : float
}.

(** The gateway's answer as the adapter reads it: the status code, the
    decoded body (read when the status is not 200), the lines that
    [aiter_lines] delivers, and the exception, if any, with which the
    transport fails after the last of them. *)
Record sse_response : Type := {
  status_code : Z;
  body : string;
  lines : list string;
  transport_failure : option exn
}.

Inductive exchange : Type :=
| NoResponse (e : exn)
| Response (r : sse_response).

(** What one run of [_stream_from_gateway] reads from the outside. *)
Record io : Type := {
  token_io : media.io;
  gateway : exchange
}.

(** A finished run of the asynchronous generator: the values it yielded,
    in order, and how it ended ([None]: exhausted; [Some e]: [e] raised). *)
Record fragments : Type := {
  yielded : list pyval;
  ending : option exn
}.

Definition yield (v : pyval) (rest : fragments) : fragments :=
  {| yielded := v :: yielded rest; ending := ending rest |}.

Record gateway_run : Type := {
  sent : option gateway_request;
  produced : fragments;
  token_call : option media.token_result
}.

(** Platform SDK constants [dingtalk_stream.AckMessage.STATUS_*]. *)
Inductive AckStatus : Type :=
| STATUS_OK
| STATUS_BAD_REQUEST
| STATUS_NOT_IMPLEMENT
| STATUS_SYSTEM_EXCEPTION.

(** Calls into the platform SDK that render the reply. They are the
    collaborator's: each is recorded and returns to the handler. *)
Inductive platform_call : Type :=
| ai_streaming (markdown : string)
| ai_finish (markdown : string)
| reply_text (text : string).

(** The card handle returned by [ai_markdown_card_start]. *)
Record card : Type := { card_instance_id : pyval }.

(** One inbound callback: the user text extracted from the payload
    ([ChatbotMessage.from_dict(callback.data).text.content.strip()]), the
    outcome of creating the card, and what the gateway run will read. *)
Record callback : Type := {
  incoming : outcome string;
  card_start : outcome (option card);
  gateway_io : io
}.

Record processed : Type := {
  ack : AckStatus * string;
  calls : list platform_call;
  run : option gateway_run
}.

Section runtime.

Variable json_loads : string -> outcome pyval.
Variable py_str : pyval -> string.

(** The body of the [try] block for one [data] payload: the content to
    yield, if any. *)
Definition delta_content (data : string) : outcome (option pyval) :=
  (chunk <- json_loads data ;;
   choices <- py_get chunk "choices" (PList []) ;;
   if truthy choices then
     first <- py_item0 choices ;;
     delta <- py_get first "delta" (PDict []) ;;
     content <- py_get delta "content" (PStr "") ;;
     if truthy content then Returns (Some content) else Returns None
   else Returns None)%py.

(** The loop over [response.aiter_lines()]. *)
Fixpoint read_lines (lines : list string) (transport_failure : option exn) : fragments :=
  match lines with
  | [] => {| yielded := []; ending := transport_failure |}
  | line :: rest =>
      if String.eqb line "" || negb (String.prefix "data: " line) then
        read_lines rest transport_failure
      else
        let data := String.substring 6 (String.length line - 6) line in
        if String.eqb data "[DONE]" then {| yielded := []; ending := None |}
        else
          match delta_content data with
          | Returns (Some content) => yield content (read_lines rest transport_failure)
          | Returns None => read_lines rest transport_failure
          | Raises e =>
              match exn_cls e with
              | JSONDecodeError => read_lines rest transport_failure
              | _ => {| yielded := []; ending := Some e |}
              end
          end
  end.

Definition system_message (text : string) : message :=
  {| role := "system"; content := text |}.

Definition user_message (text : string) : message :=
  {| role := "user"; content := text |}.

(** The image-upload guidance, when enabled: the messages it contributes
    and the token call it made. *)
Definition media_messages (cfg : ConnectorConfig) (w : io)
    (_token_cache : gmap string (pyval * float))
    : outcome (list message) * option media.token_result :=
  if enable_media_upload cfg then
    let '(media_prompt, r) :=
      media.build_media_system_prompt json_loads py_str (token_io w) _token_cache
        (dingtalk_client_id cfg) (dingtalk_client_secret cfg) in
    ((p <- media_prompt ;;
      Returns (if negb (String.eqb p "") then [system_message p] else []))%py, Some r)
  else (Returns [], None).

Definition failed (e : exn) : fragments := {| yielded := []; ending := Some e |}.

Definition _stream_from_gateway (cfg : ConnectorConfig) (w : io)
    (_token_cache : gmap string (pyval * float)) (user_content : string) : gateway_run :=
  let headers :=
    [("Content-Type", "application/json")] ++
    (if negb (String.eqb (gateway_token cfg) "")
     then [("Authorization", "Bearer " +:+ gateway_token cfg)] else []) in
  let '(media_part, token_call) := media_messages cfg w _token_cache in
  match media_part with
  | Raises e => {| sent := None; produced := failed e; token_call := token_call |}
  | Returns media_part =>
      let messages :=
        media_part ++
        (if negb (String.eqb (system_prompt cfg) "")
         then [system_message (system_prompt cfg)] else []) ++
        [user_message user_content] in
      let payload :=
        {| payload_model := model cfg; messages := messages; stream := true |} in
      let request :=
        {| url := api_url cfg; headers := headers; json := payload;
           client_timeout := timeout cfg |} in
      let produced :=
        match gateway w with
        | NoResponse e => failed e
        | Response response =>
            if negb (status_code response =? 200) then
              failed (Exn RuntimeError
                        ("Gateway 返回 " +:+ pretty (status_code response) +:+ ": "
                         +:+ body response))
            else read_lines (lines response) (transport_failure response)
        end in
      {| sent := Some request; produced := produced; token_call := token_call |}
  end.

(** The [except] branch of the card path. *)
Definition interrupted (accumulated : string) (e : exn) : string * list platform_call :=
  let accumulated := accumulated +:+ nl +:+ nl +:+ "⚠️ 响应中断: " +:+ exn_str e in
  (accumulated, [ai_streaming accumulated]).

(** The [try]/[except] of the card path over the chunks of a run: the
    final accumulator and the card updates, in order. *)
Fixpoint card_stream (accumulated : string) (chunks : list pyval) (ending : option exn)
    : string * list platform_call :=
  match chunks with
  | [] =>
      match ending with
      | None => (accumulated, [])
      | Some e => interrupted accumulated e
      end
  | chunk :: rest =>
      match py_str_iadd accumulated chunk with
      | Returns accumulated =>
          let '(final, updates) := card_stream accumulated rest ending in
          (final, ai_streaming accumulated :: updates)
      | Raises e => interrupted accumulated e
      end
  end.

(** The loop of the text path: the full response, or the exception. *)
Fixpoint text_stream (full_response : string) (chunks : list pyval) (ending : option exn)
    : outcome string :=
  match chunks with
  | [] =>
      match ending with
      | None => Returns full_response
      | Some e => Raises e
      end
  | chunk :: rest =>
      (full_response <- py_str_iadd full_response chunk ;;
       text_stream full_response rest ending)%py
  end.

(** [card and card.card_instance_id] *)
Definition card_ready (c : option card) : bool :=
  match c with
  | Some c => truthy (card_instance_id c)
  | None => false
  end.

Definition process (cfg : ConnectorConfig) (cb : callback)
    (_token_cache : gmap string (pyval * float)) : processed :=
  match incoming cb with
  | Raises e =>
      {| ack := (STATUS_SYSTEM_EXCEPTION, exn_str e); calls := []; run := None |}
  | Returns user_content =>
      let card :=
        match card_start cb with
        | Returns c => c
        | Raises _ => None
        end in
      let g := _stream_from_gateway cfg (gateway_io cb) _token_cache user_content in
      let chunks := yielded (produced g) in
      let calls :=
        if card_ready card then
          let '(accumulated, updates) := card_stream "" chunks (ending (produced g)) in
          updates ++ [ai_finish accumulated]
        else
          match text_stream "" chunks (ending (produced g)) with
          | Returns full_response =>
              [reply_text (if String.eqb full_response "" then "（无响应）" else full_response)]
          | Raises e => [reply_text ("抱歉，处理请求时出错: " +:+ exn_str e)]
          end in
      {| ack := (STATUS_OK, "ok"); calls := calls; run := Some g |}
  end.

End runtime.

End handler.

(* ===================================================================== *)
(** ** connector.py                                                       *)
(* ===================================================================== *)

Module connector.

Import config.

(** The keyword arguments of [MoltbotConnector.__init__]; [None] is an
    argument the caller left out. *)
Record MoltbotConnector_args : Type := {
  arg_dingtalk_client_id : option string;
  arg_dingtalk_client_secret : option string;
  arg_gateway_url : option string;
  arg_model : option string;
  arg_system_prompt : option string;
  arg_enable_media_upload : option bool;
  arg_timeout : option float;
  arg_gateway_token : option string
}.

Definition no_args : MoltbotConnector_args :=
  {| arg_dingtalk_client_id := None; arg_dingtalk_client_secret := None;
     arg_gateway_url := None; arg_model := None; arg_system_prompt := None;
     arg_enable_media_upload := None; arg_timeout := None; arg_gateway_token := None |}.

(** The string argument the caller supplied for the field [attr]. *)
Definition supplied (args : MoltbotConnector_args) (attr : string) : option string :=
  if String.eqb attr "dingtalk_client_id" then arg_dingtalk_client_id args
  else if String.eqb attr "dingtalk_client_secret" then arg_dingtalk_client_secret args
  else if String.eqb attr "gateway_url" then arg_gateway_url args
  else if String.eqb attr "model" then arg_model args
  else if String.eqb attr "system_prompt" then arg_system_prompt args
  else if String.eqb attr "gateway_token" then arg_gateway_token args
  else None.

(** The arguments [__init__] hands to [ConnectorConfig]: every parameter,
    each with its own declared default when the caller left it out. *)
Definition config_args (args : MoltbotConnector_args) : ConnectorConfig_args :=
  {| config.arg_dingtalk_client_id := Some (default "" (arg_dingtalk_client_id args));
     config.arg_dingtalk_client_secret := Some (default "" (arg_dingtalk_client_secret args));
     config.arg_gateway_url := Some (default "http://127.0.0.1:18789" (arg_gateway_url args));
     config.arg_model := Some (default "default" (arg_model args));
     config.arg_system_prompt := Some (default "" (arg_system_prompt args));
     config.arg_enable_media_upload := Some (default true (arg_enable_media_upload args));
     config.arg_timeout := Some (default 120%float (arg_timeout args));
     config.arg_gateway_token := Some (default "" (arg_gateway_token args)) |}.

(** [MoltbotConnector(...)]: the connector's [config] and the environment
    variables read while building it. *)
Definition MoltbotConnector_init (environ : gmap string string) (args : MoltbotConnector_args)
    : ConnectorConfig * list string :=
  ConnectorConfig_init environ (config_args args).

(** [MoltbotConnector.from_env()] *)
Definition from_env (environ : gmap string string) : ConnectorConfig * list string :=
  MoltbotConnector_init environ no_args.

(** What [start] does after validation, up to the point where the main
    thread waits for the stop flag. *)
Inductive startup_step : Type :=
| create_client (client_id client_secret : string)
| register_callback_handler
| install_signal_handlers
| start_listener_thread.

Definition start (cfg : ConnectorConfig) : outcome (list startup_step) :=
  (_ <- validate cfg ;;
   Returns [ create_client (dingtalk_client_id cfg) (dingtalk_client_secret cfg);
             register_callback_handler;
             install_signal_handlers;
             start_listener_thread ])%py.

(** What [argparse] hands to [cli_main]: [--gateway-url] and [--model],
    both with the empty string as default, and [--no-media-upload]. *)
Record cli_args : Type := {
  cli_gateway_url : string;
  cli_model : string;
  cli_no_media_upload : bool
}.

(** The [kwargs] that [cli_main] builds from the parsed arguments. *)
Definition cli_kwargs (a : cli_args) : MoltbotConnector_args :=
  {| arg_dingtalk_client_id := None;
     arg_dingtalk_client_secret := None;
     arg_gateway_url :=
       if negb (String.eqb (cli_gateway_url a) "") then Some (cli_gateway_url a) else None;
     arg_model :=
       if negb (String.eqb (cli_model a) "") then Some (cli_model a) else None;
     arg_system_prompt := None;
     arg_enable_media_upload := if cli_no_media_upload a then Some false else None;
     arg_timeout := None;
     arg_gateway_token := None |}.

(** [cli_main()] after [parse_args]: the connector is built from the
    [kwargs] and started. *)
Definition cli_main (environ : gmap string string) (a : cli_args)
    : outcome (list startup_step) :=
  start (fst (MoltbotConnector_init environ (cli_kwargs a))).

End connector.

(* ===================================================================== *)
(** ** examples/quick_start.py                                            *)
(* ===================================================================== *)

Module quick_start.

Import config.

(** [s[:n]]: the first [n] characters of a UTF-8 string. *)
Fixpoint take_chars (n : nat) (s : string) : string :=
  match n with
  | O => EmptyString
  | S n =>
      match s with
      | EmptyString => EmptyString
      | String c rest =>
          let w := (utf8_width c - 1)%nat in
          String c (String.substring 0 w rest) +:+
          take_chars n (String.substring w (String.length rest - w) rest)
      end
  end.

(** ["=" * 50] *)
Definition rule : string := String.concat "" (repeat "=" 50).

Definition SystemExit (code : string) : exn := Exn (OtherException "SystemExit") code.

Definition EOFError : exn := Exn (OtherException "EOFError") "EOF when reading a line".

(** The script talks to a terminal. [stdin] lists the answers still to
    come, each as [input(...).strip()] returns it; what is written to the
    terminal is collected line by line, the prompt of [input] included. *)
Definition prompt_input (environ : gmap string string) (stdin : list string)
    (name env_key : string) (secret : bool)
    : outcome string * list string * list string :=
  let value := os_environ_get environ env_key in
  if negb (String.eqb value "") then
    let display := if secret then take_chars 4 value +:+ "****" else value in
    (Returns value,
     ["  " +:+ name +:+ ": " +:+ display +:+ " (来自环境变量 " +:+ env_key +:+ ")"],
     stdin)
  else
    let hint := "  请输入" +:+ name +:+ ": " in
    match stdin with
    | [] => (Raises EOFError, [hint], [])
    | value :: stdin =>
        if String.eqb value "" then
          (Raises (SystemExit "1"), [hint; "  ✗ " +:+ name +:+ "不能为空"], stdin)
        else (Returns value, [hint], stdin)
    end.

(** The gateway address: the environment variable, else the answer, else
    the default. *)
Definition ask_gateway_url (environ : gmap string string) (stdin : list string)
    : outcome string * list string * list string :=
  let gateway_url := os_environ_get environ "MOLTBOT_GATEWAY_URL" in
  if negb (String.eqb gateway_url "") then (Returns gateway_url, [], stdin)
  else
    let hint := "  Gateway 地址 (直接回车使用默认 http://127.0.0.1:18789): " in
    match stdin with
    | [] => (Raises EOFError, [hint], [])
    | gateway_url :: stdin =>
        (Returns (if String.eqb gateway_url "" then "http://127.0.0.1:18789" else gateway_url),
         [hint], stdin)
    end.

(** [main()]: how [connector.start()] ends (or the exception that ends the
    script before it), and what was written to the terminal. *)
Definition main (environ : gmap string string) (stdin : list string)
    : outcome (list connector.startup_step) * list string :=
  let banner :=
    [ ""; rule; "  dingtalk-moltbot-connector 快速启动"; rule; "";
      "▶ 钉钉机器人配置";
      "  (如何获取: https://open.dingtalk.com → 应用开发 → 企业内部开发)";
      "" ] in
  let '(client_id, out1, stdin) :=
    prompt_input environ stdin "AppKey" "DINGTALK_CLIENT_ID" false in
  match client_id with
  | Raises e => (Raises e, banner ++ out1)
  | Returns client_id =>
      let '(client_secret, out2, stdin) :=
        prompt_input environ stdin "AppSecret" "DINGTALK_CLIENT_SECRET" true in
      match client_secret with
      | Raises e => (Raises e, banner ++ out1 ++ out2)
      | Returns client_secret =>
          let heading := [ ""; "▶ Moltbot Gateway 配置" ] in
          let '(gateway_url, out3, stdin) := ask_gateway_url environ stdin in
          match gateway_url with
          | Raises e => (Raises e, banner ++ out1 ++ out2 ++ heading ++ out3)
          | Returns gateway_url =>
              let hints :=
                [ "  Gateway: " +:+ gateway_url;
                  "";
                  "  提示: 下次可通过环境变量跳过输入:";
                  "    export DINGTALK_CLIENT_ID=" +:+ dq +:+ client_id +:+ dq;
                  "    export DINGTALK_CLIENT_SECRET=" +:+ dq +:+ "****" +:+ dq ] ++
                (if negb (String.eqb gateway_url "http://127.0.0.1:18789")
                 then [ "    export MOLTBOT_GATEWAY_URL=" +:+ dq +:+ gateway_url +:+ dq ]
                 else []) ++
                [ "" ] in
              let connector :=
                connector.MoltbotConnector_init environ
                  {| connector.arg_dingtalk_client_id := Some client_id;
                     connector.arg_dingtalk_client_secret := Some client_secret;
                     connector.arg_gateway_url := Some gateway_url;
                     connector.arg_model := None;
                     connector.arg_system_prompt := None;
                     connector.arg_enable_media_upload := None;
                     connector.arg_timeout := None;
                     connector.arg_gateway_token := None |} in
              (connector.start (fst connector),
               banner ++ out1 ++ out2 ++ heading ++ out3 ++ hints)
          end
      end
  end.

End quick_start.

(* ===================================================================== *)
(** ** A JSON decoder and [str()] for the concrete runs                   *)
(* ===================================================================== *)

(** The sources call Python's [json.loads] and format values with
    [str()]; the modules above take both as parameters. The concrete runs
    further down instantiate them with [pyjson.loads], the decoder of
    CPython 3.11 ([json.loads] with the C scanner and no hooks) on a
    [str] held as its UTF-8 bytes, with its two limits (the length of an
    integer literal and the nesting depth), and with [pyjson.str]. *)
Module pyjson.

(** [sys.get_int_max_str_digits()]: the longest run of digits that
    [int()] converts. *)
Definition int_max_str_digits : nat := 4300.

(** The nesting depth beyond which the decoder raises [RecursionError].
    CPython counts the decoder's recursion against the interpreter's
    recursion limit (1000 by default), so the bound of one call is what
    the call stack has left of it: 994 in CPython 3.11 for a call one
    frame below module level, a few less inside the handler. *)
Definition nesting_limit : nat := 994.

Definition RecursionError (what : string) : exn :=
  Exn (OtherException "RecursionError")
    ("maximum recursion depth exceeded while decoding a JSON " +:+ what
     +:+ " from a unicode string").

Definition is_space (c : ascii) : bool :=
  Ascii.eqb c " " || Ascii.eqb c "009" || Ascii.eqb c "010" || Ascii.eqb c "013".

Fixpoint skip_ws (s : string) : string :=
  match s with
  | String c rest => if is_space c then skip_ws rest else s
  | EmptyString => s
  end.

Definition digit_of (c : ascii) : option Z :=
  let n := Z.of_nat (nat_of_ascii c) in
  if (48 <=? n) && (n <=? 57) then Some (n - 48) else None.

Definition hex_of (c : ascii) : option Z :=
  let n := Z.of_nat (nat_of_ascii c) in
  if (48 <=? n) && (n <=? 57) then Some (n - 48)
  else if (65 <=? n) && (n <=? 70) then Some (n - 55)
  else if (97 <=? n) && (n <=? 102) then Some (n - 87)
  else None.

(** A run of decimal digits: its value after [acc], its length, the rest. *)
Fixpoint digits (acc : Z) (count : nat) (s : string) : Z * nat * string :=
  match s with
  | String c rest =>
      match digit_of c with
      | Some d => digits (10 * acc + d) (S count) rest
      | None => (acc, count, s)
      end
  | EmptyString => (acc, count, s)
  end.

(** Four hexadecimal digits. *)
Definition hex4 (s : string) : option (Z * string) :=
  match s with
  | String a (String b (String c (String d rest))) =>
      match hex_of a, hex_of b, hex_of c, hex_of d with
      | Some a, Some b, Some c, Some d => Some (((a * 16 + b) * 16 + c) * 16 + d, rest)
      | _, _, _, _ => None
      end
  | _ => None
  end.

Definition byte (n : Z) : string := String (ascii_of_nat (Z.to_nat n)) EmptyString.

Definition utf8_encode (cp : Z) : string :=
  if cp <? 128 then byte cp
  else if cp <? 2048 then byte (192 + cp / 64) +:+ byte (128 + cp mod 64)
  else if cp <? 65536 then
    byte (224 + cp / 4096) +:+ byte (128 + (cp / 64) mod 64) +:+ byte (128 + cp mod 64)
  else
    byte (240 + cp / 262144) +:+ byte (128 + (cp / 4096) mod 64)
    +:+ byte (128 + (cp / 64) mod 64) +:+ byte (128 + cp mod 64).

Definition simple_escape (c : ascii) : option string :=
  if Ascii.eqb c (ascii_of_nat 34) then Some dq
  else if Ascii.eqb c "\" then Some "\"
  else if Ascii.eqb c "/" then Some "/"
  else if Ascii.eqb c "b" then Some (byte 8)
  else if Ascii.eqb c "f" then Some (byte 12)
  else if Ascii.eqb c "n" then Some (byte 10)
  else if Ascii.eqb c "r" then Some (byte 13)
  else if Ascii.eqb c "t" then Some (byte 9)
  else None.

(** The double nearest to [m * 10 ^ e10]. *)
Definition float_of_decimal (negative : bool) (m : Z) (e10 : Z) : float :=
  let signed (z : Z) := if negative then - z else z in
  if 0 <=? e10 then SF2Prim (binary_normalize prec emax (signed (m * 10 ^ e10)) 0 negative)
  else
    let d := 10 ^ (- e10) in
    let s := Z.max 0 (64 + Z.log2 d - Z.log2 m) in
    let n := m * 2 ^ s in
    let sticky := if n mod d =? 0 then 0 else 1 in
    SF2Prim (binary_normalize prec emax (signed (2 * (n / d) + sticky)) (- s - 1) negative).

(** [int()] on a run of [count] digits whose value is [i]. *)
Definition int_of_digits (negative : bool) (i : Z) (count : nat) : outcome pyval :=
  if (int_max_str_digits <? count)%nat then
    Raises (Exn ValueError
              ("Exceeds the limit (4300 digits) for integer string conversion: value has "
               +:+ pretty (Z.of_nat count)
               +:+ " digits; use sys.set_int_max_str_digits() to increase the limit"))
  else Returns (PInt (if negative then - i else i)).

(** A number after its optional sign: nothing when no number starts
    here, and otherwise the converted value, or the exception of the
    conversion, and the rest. *)
Definition parse_number (negative : bool) (s : string) : option (outcome pyval * string) :=
  let int_part :=
    match s with
    | String "0" rest => Some (0, 1%nat, rest)
    | _ => let '(v, count, rest) := digits 0 0 s in
           match count with O => None | _ => Some (v, count, rest) end
    end in
  match int_part with
  | None => None
  | Some (i, int_len, rest) =>
      let '(m, frac_len, rest1, has_frac) :=
        match rest with
        | String "." after =>
            let '(v, count, rest') := digits i 0 after in
            match count with
            | O => (i, O, rest, false)
            | _ => (v, count, rest', true)
            end
        | _ => (i, O, rest, false)
        end in
      let exponent (after : string) (sign : Z) :=
        let '(v, count, rest') := digits 0 0 after in
        match count with O => None | _ => Some (sign * v, rest') end in
      let exp_part :=
        match rest1 with
        | String c after =>
            if Ascii.eqb c "e" || Ascii.eqb c "E" then
              match after with
              | String "+" after' => exponent after' 1
              | String "-" after' => exponent after' (-1)
              | _ => exponent after 1
              end
            else None
        | EmptyString => None
        end in
      match exp_part with
      | Some (e, rest2) =>
          Some (Returns (PFloat (float_of_decimal negative m (e - Z.of_nat frac_len))), rest2)
      | None =>
          if has_frac
          then Some (Returns (PFloat (float_of_decimal negative m (- Z.of_nat frac_len))),
                     rest1)
          else Some (int_of_digits negative i int_len, rest1)
      end
  end.

Definition drop_prefix (p s : string) : option string :=
  if String.prefix p s
  then Some (String.substring (String.length p) (String.length s - String.length p) s)
  else None.

(** [d[k] = v] *)
Fixpoint dict_set (d : list (string * pyval)) (k : string) (v : pyval)
    : list (string * pyval) :=
  match d with
  | [] => [(k, v)]
  | (k', v') :: rest =>
      if String.eqb k' k then (k, v) :: rest else (k', v') :: dict_set rest k v
  end.

(** The number of characters of a [str] held as UTF-8: the bytes that
    do not continue a character. *)
Fixpoint char_count (s : string) : Z :=
  match s with
  | EmptyString => 0
  | String c rest =>
      (if (nat_of_ascii c <? 128)%nat || (191 <? nat_of_ascii c)%nat then 1 else 0)
      + char_count rest
  end.

(** The number of the line (counted from [line]) in which [text] ends,
    and the part of that line that is in [text]; [current] is the part
    seen so far. *)
Fixpoint last_line (line : Z) (current text : string) : Z * string :=
  match text with
  | EmptyString => (line, current)
  | String c rest =>
      if Ascii.eqb c "010" then last_line (line + 1) rest rest
      else last_line line current rest
  end.

(** The byte order mark, which [json.loads] refuses. *)
Definition bom : string := byte 239 +:+ byte 187 +:+ byte 191.

Section decoder.

(** The document that is decoded; the texts handed to the functions
    below are what is left of it. *)
Variable doc : string.

(** [JSONDecodeError(msg, doc, pos)] for the position at which [rest]
    starts. *)
Definition decode_error {A : Type} (msg rest : string) : outcome A :=
  let before := String.substring 0 (String.length doc - String.length rest) doc in
  let '(lineno, line) := last_line 1 before before in
  Raises (Exn JSONDecodeError
            (msg +:+ ": line " +:+ pretty lineno
             +:+ " column " +:+ pretty (char_count line + 1)
             +:+ " (char " +:+ pretty (char_count before) +:+ ")")).

(** The code point of a [\u] escape whose four digits gave [u] and which
    [rest] follows: a high surrogate followed by an escaped low surrogate
    and at least one more character is one code point. *)
Definition unicode_escape (u : Z) (rest : string) : outcome (Z * string) :=
  if (55296 <=? u) && (u <=? 56319) && (6 <? String.length rest)%nat then
    match rest with
    | String "\" (String "u" rest') =>
        match hex4 rest' with
        | Some (lo, rest'') =>
            if (56320 <=? lo) && (lo <=? 57343)
            then Returns (65536 + (u - 55296) * 1024 + (lo - 56320), rest'')
            else Returns (u, rest)
        | None => decode_error "Invalid \uXXXX escape" (String "u" rest')
        end
    | _ => Returns (u, rest)
    end
  else Returns (u, rest).

(** A string literal after its opening quote, with which [start] starts. *)
Fixpoint parse_string (fuel : nat) (start s : string) : outcome (string * string) :=
  match fuel with
  | O => decode_error "Unterminated string starting at" start
  | S fuel =>
      match s with
      | EmptyString => decode_error "Unterminated string starting at" start
      | String c rest =>
          if Ascii.eqb c (ascii_of_nat 34) then Returns (EmptyString, rest)
          else if Ascii.eqb c "\" then
            match rest with
            | EmptyString => decode_error "Unterminated string starting at" start
            | String e rest' =>
                if Ascii.eqb e "u" then
                  if (String.length rest' <=? 4)%nat
                  then decode_error "Invalid \uXXXX escape" rest
                  else
                    match hex4 rest' with
                    | None => decode_error "Invalid \uXXXX escape" rest
                    | Some (u, rest'') =>
                        match unicode_escape u rest'' with
                        | Returns (cp, rest3) =>
                            match parse_string fuel start rest3 with
                            | Returns (tail, after) => Returns (utf8_encode cp +:+ tail, after)
                            | Raises x => Raises x
                            end
                        | Raises x => Raises x
                        end
                    end
                else
                  match simple_escape e with
                  | Some x =>
                      match parse_string fuel start rest' with
                      | Returns (tail, after) => Returns (x +:+ tail, after)
                      | Raises x => Raises x
                      end
                  | None => decode_error "Invalid \escape" s
                  end
            end
          else if (nat_of_ascii c <? 32)%nat then
            decode_error "Invalid control character at" s
          else
            match parse_string fuel start rest with
            | Returns (tail, after) => Returns (String c tail, after)
            | Raises x => Raises x
            end
      end
  end.

(** A constant or a number. *)
Definition parse_literal (s : string) : outcome (pyval * string) :=
  match drop_prefix "null" s with
  | Some rest => Returns (PNone, rest)
  | None =>
  match drop_prefix "true" s with
  | Some rest => Returns (PBool true, rest)
  | None =>
  match drop_prefix "false" s with
  | Some rest => Returns (PBool false, rest)
  | None =>
  match drop_prefix "NaN" s with
  | Some rest => Returns (PFloat nan, rest)
  | None =>
  match drop_prefix "Infinity" s with
  | Some rest => Returns (PFloat infinity, rest)
  | None =>
  match drop_prefix "-Infinity" s with
  | Some rest => Returns (PFloat neg_infinity, rest)
  | None =>
  match
    match s with
    | String "-" rest => parse_number true rest
    | _ => parse_number false s
    end
  with
  | Some (converted, rest) => (v <- converted ;; Returns (v, rest))%py
  | None => decode_error "Expecting value" s
  end end end end end end end.

(** A value, with [depth] levels of nesting left. *)
Fixpoint parse_value (fuel depth : nat) (s : string) {struct fuel}
    : outcome (pyval * string) :=
  match fuel with
  | O => decode_error "Expecting value" s
  | S fuel =>
      match s with
      | EmptyString => decode_error "Expecting value" s
      | String c rest =>
          if Ascii.eqb c (ascii_of_nat 34) then
            match parse_string (S (String.length rest)) s rest with
            | Returns (str, after) => Returns (PStr str, after)
            | Raises e => Raises e
            end
          else if Ascii.eqb c "[" then
            match depth with
            | O => Raises (RecursionError "array")
            | S depth =>
                match skip_ws rest with
                | String "]" after => Returns (PList [], after)
                | rest' => parse_elements fuel depth [] rest'
                end
            end
          else if Ascii.eqb c "{" then
            match depth with
            | O => Raises (RecursionError "object")
            | S depth =>
                match skip_ws rest with
                | String "}" after => Returns (PDict [], after)
                | rest' => parse_members fuel depth [] rest'
                end
            end
          else parse_literal s
      end
  end
with parse_elements (fuel depth : nat) (acc : list pyval) (s : string) {struct fuel}
    : outcome (pyval * string) :=
  match fuel with
  | O => decode_error "Expecting value" s
  | S fuel =>
      match parse_value fuel depth s with
      | Returns (v, rest) =>
          match skip_ws rest with
          | String "," after => parse_elements fuel depth (v :: acc) (skip_ws after)
          | String "]" after => Returns (PList (rev (v :: acc)), after)
          | other => decode_error "Expecting ',' delimiter" other
          end
      | Raises e => Raises e
      end
  end
with parse_members (fuel depth : nat) (acc : list (string * pyval)) (s : string)
    {struct fuel} : outcome (pyval * string) :=
  match fuel with
  | O => decode_error "Expecting value" s
  | S fuel =>
      match s with
      | String c rest =>
          if Ascii.eqb c (ascii_of_nat 34) then
            match parse_string (S (String.length rest)) s rest with
            | Returns (key, after) =>
                match skip_ws after with
                | String ":" after' =>
                    match parse_value fuel depth (skip_ws after') with
                    | Returns (v, rest') =>
                        match skip_ws rest' with
                        | String "," more =>
                            parse_members fuel depth (dict_set acc key v) (skip_ws more)
                        | String "}" more => Returns (PDict (dict_set acc key v), more)
                        | other => decode_error "Expecting ',' delimiter" other
                        end
                    | Raises e => Raises e
                    end
                | other => decode_error "Expecting ':' delimiter" other
                end
            | Raises e => Raises e
            end
          else decode_error "Expecting property name enclosed in double quotes" s
      | EmptyString => decode_error "Expecting property name enclosed in double quotes" s
      end
  end.

End decoder.

(** [json.loads(s)] *)
Definition loads (s : string) : outcome pyval :=
  if String.prefix bom s
  then decode_error s "Unexpected UTF-8 BOM (decode using utf-8-sig)" s
  else
    match parse_value s (2 * String.length s + 2) nesting_limit (skip_ws s) with
    | Returns (v, rest) =>
        match skip_ws rest with
        | EmptyString => Returns v
        | other => decode_error s "Extra data" other
        end
    | Raises e => Raises e
    end.

(** [str(v)] on [None], [bool], [int] and [str]. The runs below format no
    float and no container, whose [repr] is left as the type's name. *)
Definition str (v : pyval) : string :=
  match v with
  | PNone => "None"
  | PBool b => if b then "True" else "False"
  | PInt z => pretty z
  | PStr s => s
  | _ => "<" +:+ type_name v +:+ ">"
  end.

End pyjson.

(* ===================================================================== *)
(** ** Vocabulary of the statements                                       *)
(* ===================================================================== *)

(** [x] occurs in [s]. *)
Definition mentions (s x : string) : Prop :=
  exists before after : string, s = before +:+ x +:+ after.

(** [''.join(fs)] *)
Definition joined (fs : list string) : string := fold_right String.append EmptyString fs.

(** The accumulator after each fragment: [f1], [f1 f2], ... *)
Definition accumulators (fs : list string) : list string :=
  map (fun k => joined (take k fs)) (seq 1 (length fs)).

Definition is_finish (c : handler.platform_call) : bool :=
  match c with
  | handler.ai_finish _ => true
  | _ => false
  end.

(** The payload of an event line: what follows the [data: ] marker. *)
Definition payload_of (line : string) : option string :=
  if String.prefix "data: " line
  then Some (String.substring 6 (String.length line - 6) line)
  else None.

(** The payloads that precede the termination marker. *)
Fixpoint until_done (payloads : list string) : list string :=
  match payloads with
  | [] => []
  | p :: rest => if String.eqb p "[DONE]" then [] else p :: until_done rest
  end.

(** [choices[0].delta.content] of an envelope, when it is there and
    non-empty. *)
Definition envelope_content (chunk : pyval) : option pyval :=
  match chunk with
  | PDict d =>
      match dict_lookup d "choices" with
      | Some (PList (PDict first :: _)) =>
          match dict_lookup first "delta" with
          | Some (PDict delta) =>
              match dict_lookup delta "content" with
              | Some c => if truthy c then Some c else None
              | None => None
              end
          | _ => None
          end
      | _ => None
      end
  | _ => None
  end.

(** An envelope: an object whose [choices], when it is there and true
    (neither empty nor zero nor [None]), is a list that starts with an
    object whose [delta], when it is there, is an object. *)
Definition envelope_shaped (chunk : pyval) : bool :=
  match chunk with
  | PDict d =>
      match dict_lookup d "choices" with
      | None => true
      | Some choices =>
          if truthy choices then
            match choices with
            | PList (PDict first :: _) =>
                match dict_lookup first "delta" with
                | None | Some (PDict _) => true
                | Some _ => false
                end
            | _ => false
            end
          else true
      end
  | _ => false
  end.

Definition is_decode_error (e : exn) : bool :=
  match exn_cls e with
  | JSONDecodeError => true
  | _ => false
  end.

(** A payload on which [json.loads] either raises [JSONDecodeError] or
    returns an envelope. A payload on which it raises anything else, or
    returns another value, is not one of these. *)
Definition frame_ok (json_loads : string -> outcome pyval) (p : string) : bool :=
  match json_loads p with
  | Returns chunk => envelope_shaped chunk
  | Raises e => is_decode_error e
  end.

(** The content a payload contributes: none when [json.loads] raises. *)
Definition content_of (json_loads : string -> outcome pyval) (p : string) : option pyval :=
  match json_loads p with
  | Returns chunk => envelope_content chunk
  | Raises _ => None
  end.

(** The value a token call handed back ([None] stands for no token). *)
Definition token_of (r : media.token_result) : pyval :=
  match media.returned r with
  | Returns v => v
  | Raises _ => PNone
  end.

(** The three-source rule for one field whose constructor value is [v]. *)
Definition resolve (environ : gmap string string) (env_key dflt v : string) : string :=
  if String.eqb v config._UNSET then
    if String.eqb (config.os_environ_get environ env_key) "" then dflt
    else config.os_environ_get environ env_key
  else v.

(** The variable a field reads when its constructor value is [v]. *)
Definition consulted (env_key v : string) : list string :=
  if String.eqb v config._UNSET then [env_key] else [].

(** A constructor call that passes the sentinel's text as the model name,
    and an environment that sets [MOLTBOT_MODEL]. *)
Definition sentinel_args : config.ConnectorConfig_args :=
  {| config.arg_dingtalk_client_id := Some "dingXXX";
     config.arg_dingtalk_client_secret := Some "secret";
     config.arg_gateway_url := None;
     config.arg_model := Some "__UNSET__";
     config.arg_system_prompt := None;
     config.arg_enable_media_upload := None;
     config.arg_timeout := None;
     config.arg_gateway_token := None |}.

Definition model_environ : gmap string string := {[ "MOLTBOT_MODEL" := "gpt-4o" ]}.

(** A connector call that passes the sentinel's text as the model name
    and leaves every other argument out. *)
Definition sentinel_model_args : connector.MoltbotConnector_args :=
  {| connector.arg_dingtalk_client_id := None;
     connector.arg_dingtalk_client_secret := None;
     connector.arg_gateway_url := None;
     connector.arg_model := Some "__UNSET__";
     connector.arg_system_prompt := None;
     connector.arg_enable_media_upload := None;
     connector.arg_timeout := None;
     connector.arg_gateway_token := None |}.

(** *** Data of the concrete runs *)

(** The envelope whose content is [text], as the gateway writes it. *)
Definition envelope (text : string) : string :=
  "{" +:+ dq +:+ "choices" +:+ dq +:+ ":[{" +:+ dq +:+ "delta" +:+ dq +:+ ":{"
  +:+ dq +:+ "content" +:+ dq +:+ ":" +:+ dq +:+ text +:+ dq +:+ "}}]}".

(** A stream with a blank line, a comment, a frame that is not JSON, an
    event line, two fragments, the termination marker and a late frame. *)
Definition greeting_lines : list string :=
  [ "";
    ": keep-alive";
    "data: " +:+ envelope "Hi";
    "data: {not json";
    "event: message";
    "data: " +:+ envelope " there";
    "data: [DONE]";
    "data: " +:+ envelope "late" ].

(** A stream whose first frame is valid JSON and no object. *)
Definition null_frame_lines : list string :=
  [ "data: null"; "data: " +:+ envelope "x"; "data: [DONE]" ].

(** A token response that issues [tok-1] for 7200 seconds, and one that
    refuses. *)
Definition issued_body : string :=
  "{" +:+ dq +:+ "errcode" +:+ dq +:+ ":0," +:+ dq +:+ "access_token" +:+ dq +:+ ":"
  +:+ dq +:+ "tok-1" +:+ dq +:+ "," +:+ dq +:+ "expires_in" +:+ dq +:+ ":7200}".

Definition refused_body : string :=
  "{" +:+ dq +:+ "errcode" +:+ dq +:+ ":40089," +:+ dq +:+ "errmsg" +:+ dq +:+ ":"
  +:+ dq +:+ "invalid appkey" +:+ dq +:+ "}".

Definition issuing_call (check store : float) : media.io :=
  {| media.clock_at_check := check;
     media.gettoken := Returns {| media.status_code := 200; media.text := issued_body |};
     media.clock_at_store := store |}.

Definition refusing_call : media.io :=
  {| media.clock_at_check := 1000%float;
     media.gettoken := Returns {| media.status_code := 200; media.text := refused_body |};
     media.clock_at_store := 1000%float |}.

Definition example_config : config.ConnectorConfig :=
  fst (connector.MoltbotConnector_init ∅
         {| connector.arg_dingtalk_client_id := Some "dingXXX";
            connector.arg_dingtalk_client_secret := Some "secret";
            connector.arg_gateway_url := None;
            connector.arg_model := None;
            connector.arg_system_prompt := Some "Be brief.";
            connector.arg_enable_media_upload := None;
            connector.arg_timeout := None;
            connector.arg_gateway_token := None |}).

Definition gateway_answer (status : Z) (text : string) (event_lines : list string)
    : handler.exchange :=
  handler.Response
    {| handler.status_code := status; handler.body := text;
       handler.lines := event_lines; handler.transport_failure := None |}.

(** Inbound text [hello], a card that was created, a token fetch that is
    refused, and a gateway that streams [greeting_lines]. *)
Definition greeting_callback : handler.callback :=
  {| handler.incoming := Returns "hello";
     handler.card_start := Returns (Some {| handler.card_instance_id := PStr "card-1" |});
     handler.gateway_io :=
       {| handler.token_io := refusing_call;
          handler.gateway := gateway_answer 200 "" greeting_lines |} |}.

(** A gateway that answers 500 with the body [server error]. *)
Definition server_error_io : handler.io :=
  {| handler.token_io := refusing_call;
     handler.gateway := gateway_answer 500 "server error" [] |}.

(** Inbound text [hello], a card that was created, and the gateway of
    [server_error_io]; and the same with a card whose creation raised. *)
Definition server_error_callback : handler.callback :=
  {| handler.incoming := Returns "hello";
     handler.card_start := Returns (Some {| handler.card_instance_id := PStr "card-1" |});
     handler.gateway_io := server_error_io |}.

Definition no_card_callback : handler.callback :=
  {| handler.incoming := Returns "hello";
     handler.card_start := Raises (Exn (OtherException "HTTPError") "card creation failed");
     handler.gateway_io := handler.gateway_io greeting_callback |}.

(** *** Vocabulary of the further properties *)

(** [n] slashes. *)
Fixpoint slashes (n : nat) : string :=
  match n with
  | O => EmptyString
  | S n => String "/" (slashes n)
  end.

(** [s.endswith("/")] *)
Fixpoint ends_with_slash (s : string) : bool :=
  match s with
  | EmptyString => false
  | String c EmptyString => Ascii.eqb c "/"
  | String _ rest => ends_with_slash rest
  end.

(** The text a platform call carries. *)
Definition call_text (c : handler.platform_call) : string :=
  match c with
  | handler.ai_streaming t | handler.ai_finish t | handler.reply_text t => t
  end.

Definition is_update (c : handler.platform_call) : bool :=
  match c with
  | handler.ai_streaming _ => true
  | _ => false
  end.

(** A call that ends the reply: the card's finish or the text reply. *)
Definition is_terminal (c : handler.platform_call) : bool :=
  match c with
  | handler.ai_streaming _ => false
  | _ => true
  end.

(** Each text starts with the one before it, the first with [prev]. *)
Fixpoint each_extends (prev : string) (texts : list string) : bool :=
  match texts with
  | [] => true
  | t :: rest => String.prefix prev t && each_extends t rest
  end.

(** The card the handler works with: none when its creation raised. *)
Definition card_of (cb : handler.callback) : option handler.card :=
  match handler.card_start cb with
  | Returns c => c
  | Raises _ => None
  end.

(** What the card shows, and what the text reply says, for an exception. *)
Definition interruption (e : exn) : string :=
  nl +:+ nl +:+ "⚠️ 响应中断: " +:+ exn_str e.

Definition apology (e : exn) : string := "抱歉，处理请求时出错: " +:+ exn_str e.

(** The error of [str += v] for a [v] that is no string. *)
Definition not_a_string (v : pyval) : exn :=
  Exn TypeError ("can only concatenate str (not " +:+ dq +:+ type_name v +:+ dq +:+ ") to str").

(** The error raised for a response whose status is not 200. *)
Definition refusal (r : handler.sse_response) : exn :=
  Exn RuntimeError
    ("Gateway 返回 " +:+ pretty (handler.status_code r) +:+ ": " +:+ handler.body r).

(** The part of the upload command that carries the token. *)
Definition upload_url (token : string) : string :=
  "https://oapi.dingtalk.com/media/upload?access_token=" +:+ token +:+ "&type=image".

(** A line that carries the payload [p]. *)
Definition data_line (p : string) : string := "data: " +:+ p.

(** The errors a frame that is valid JSON can raise in the loop. *)
Definition is_shape_error (e : exn) : bool :=
  match exn_cls e with
  | AttributeError | KeyError | TypeError => true
  | _ => false
  end.

(** *** Data of the further runs *)

(** An environment with the client id, and the answers typed for the
    secret and the gateway address (the latter left empty). *)
Definition id_environ : gmap string string := {[ "DINGTALK_CLIENT_ID" := "dingXXX" ]}.

Definition typed_answers : list string := [ "secret"; "" ].

(** A token response with [errcode] 0 and no token. *)
Definition tokenless_body : string :=
  "{" +:+ dq +:+ "errcode" +:+ dq +:+ ":0," +:+ dq +:+ "expires_in" +:+ dq +:+ ":7200}".

Definition tokenless_call (check store : float) : media.io :=
  {| media.clock_at_check := check;
     media.gettoken := Returns {| media.status_code := 200; media.text := tokenless_body |};
     media.clock_at_store := store |}.

(** A frame whose content is the number 5. *)
Definition number_frame : string :=
  "{" +:+ dq +:+ "choices" +:+ dq +:+ ":[{" +:+ dq +:+ "delta" +:+ dq +:+ ":{"
  +:+ dq +:+ "content" +:+ dq +:+ ":5}}]}".

(** [n] times the character [c]. *)
Fixpoint run_of (c : ascii) (n : nat) : string :=
  match n with
  | O => EmptyString
  | S n => String c (run_of c n)
  end.

(** An envelope that also carries an integer of 4301 digits. *)
Definition long_integer_frame : string :=
  "{" +:+ dq +:+ "choices" +:+ dq +:+ ":[{" +:+ dq +:+ "delta" +:+ dq +:+ ":{"
  +:+ dq +:+ "content" +:+ dq +:+ ":" +:+ dq +:+ "x" +:+ dq +:+ "}}],"
  +:+ dq +:+ "n" +:+ dq +:+ ":" +:+ run_of "1" 4301 +:+ "}".

(** The start of an array nested 2000 deep. *)
Definition nested_frame : string := run_of "[" 2000.

Definition number_lines : list string :=
  [ "data: " +:+ envelope "Hi"; "data: " +:+ number_frame;
    "data: " +:+ envelope " there"; "data: [DONE]" ].

Definition callback_over (card_start : outcome (option handler.card))
    (gateway : handler.exchange) : handler.callback :=
  {| handler.incoming := Returns "hello";
     handler.card_start := card_start;
     handler.gateway_io :=
       {| handler.token_io := refusing_call; handler.gateway := gateway |} |}.

Definition a_card : outcome (option handler.card) :=
  Returns (Some {| handler.card_instance_id := PStr "card-1" |}).

(** A card handle without an instance id. *)
Definition idle_card : outcome (option handler.card) :=
  Returns (Some {| handler.card_instance_id := PStr "" |}).

Definition connect_error : exn := Exn (OtherException "ConnectError") "connection refused".

(* ===================================================================== *)
(** ** Properties of config.py and connector.py                          *)
(* ===================================================================== *)

Section config_properties.

Import config.

Implicit Types (environ : gmap string string) (self : ConnectorConfig).

Ltac split_on_sentinel :=
  repeat (cbn -[os_environ_get _UNSET];
          match goal with
          | |- context [String.eqb ?x _UNSET] => is_var x; destruct (String.eqb x _UNSET)
          end).

(** [__post_init__] resolves each of the five fields on its own and
    leaves the other three alone. *)
Lemma post_init_fields environ self :
  fst (__post_init__ environ self) =
  {| dingtalk_client_id :=
       resolve environ "DINGTALK_CLIENT_ID" "" (dingtalk_client_id self);
     dingtalk_client_secret :=
       resolve environ "DINGTALK_CLIENT_SECRET" "" (dingtalk_client_secret self);
     gateway_url :=
       resolve environ "MOLTBOT_GATEWAY_URL" "http://127.0.0.1:18789" (gateway_url self);
     model := resolve environ "MOLTBOT_MODEL" "default" (model self);
     system_prompt := system_prompt self;
     enable_media_upload := enable_media_upload self;
     timeout := timeout self;
     gateway_token := resolve environ "MOLTBOT_GATEWAY_TOKEN" "" (gateway_token self) |}.
Proof.
  destruct self as [i s u m p e t g].
  unfold __post_init__, _ENV_DEFAULTS, resolve, post_init_step.
  split_on_sentinel; reflexivity.
Qed.

(** The variables [__post_init__] reads are those of the fields that hold
    the sentinel, in the order of the table. *)
Lemma post_init_reads environ self :
  snd (__post_init__ environ self) =
  consulted "DINGTALK_CLIENT_ID" (dingtalk_client_id self) ++
  consulted "DINGTALK_CLIENT_SECRET" (dingtalk_client_secret self) ++
  consulted "MOLTBOT_GATEWAY_URL" (gateway_url self) ++
  consulted "MOLTBOT_MODEL" (model self) ++
  consulted "MOLTBOT_GATEWAY_TOKEN" (gateway_token self).
Proof.
  destruct self as [i s u m p e t g].
  unfold __post_init__, _ENV_DEFAULTS, consulted, post_init_step.
  split_on_sentinel; reflexivity.
Qed.

Lemma resolve_kept environ env_key dflt v :
  v <> _UNSET -> resolve environ env_key dflt v = v.
Proof.
  intros Hv. unfold resolve.
  destruct (String.eqb_spec v _UNSET) as [E | _]; [contradiction | reflexivity].
Qed.

Lemma resolve_unset environ env_key dflt :
  resolve environ env_key dflt _UNSET =
  if String.eqb (os_environ_get environ env_key) "" then dflt
  else os_environ_get environ env_key.
Proof. reflexivity. Qed.

(** C1 (as amended). For each field of the table [_ENV_DEFAULTS]: a
    constructor value other than the sentinel's text is kept, the empty
    string included; when the argument is left out, a non-empty value of
    the field's environment variable is used, and the table's default
    otherwise. *)
Theorem resolver_precedence environ (args : ConnectorConfig_args) :
  Forall (fun '(attr, (env_key, dflt)) =>
    let resolved := getattr (fst (ConnectorConfig_init environ args)) attr in
    let env_val := os_environ_get environ env_key in
    (forall v, supplied args attr = Some v -> v <> _UNSET -> resolved = v) /\
    (supplied args attr = Some "" -> resolved = "") /\
    (supplied args attr = None -> env_val <> "" -> resolved = env_val) /\
    (supplied args attr = None -> env_val = "" -> resolved = dflt))
  _ENV_DEFAULTS.
Proof.
  assert (Hempty : "" <> _UNSET) by discriminate.
  unfold ConnectorConfig_init. rewrite post_init_fields.
  destruct args as [i s u m p e t g].
  unfold _ENV_DEFAULTS.
  repeat (apply List.Forall_cons;
    [ cbn -[resolve os_environ_get _UNSET]; repeat split;
      [ intros v -> Hv; cbn -[resolve]; apply resolve_kept; exact Hv
      | intros ->; cbn -[resolve]; apply resolve_kept; exact Hempty
      | intros -> Hne; cbn -[resolve os_environ_get]; rewrite resolve_unset;
        match goal with
        | |- context [String.eqb ?x ""] =>
            destruct (String.eqb_spec x "") as [E | _]; [contradiction | reflexivity]
        end
      | intros -> He; cbn -[resolve os_environ_get]; rewrite resolve_unset, He; reflexivity ]
    | ]).
  apply List.Forall_nil.
Qed.

(** C1, the claim as stated fails: the text of the sentinel, passed as the
    model name, is not kept; the environment variable's value is used. *)
Lemma sentinel_argument_not_kept :
  supplied sentinel_args "model" = Some "__UNSET__" /\
  getattr (fst (ConnectorConfig_init model_environ sentinel_args)) "model" = "gpt-4o".
Proof. split; vm_compute; reflexivity. Qed.

(** C6. [validate] raises [ValueError] exactly when the client id or the
    client secret is the empty string, and returns when both are
    non-empty. It is a function of the configuration alone (no state of
    the outside world goes in or comes out), and [start] gives up with the
    same error before its first step when validation fails. *)
Theorem validate_raises_iff_credential_empty self :
  ((exists e, validate self = Raises e /\ exn_cls e = ValueError) <->
   (dingtalk_client_id self = "" \/ dingtalk_client_secret self = "")) /\
  (validate self = Returns tt <->
   (dingtalk_client_id self <> "" /\ dingtalk_client_secret self <> "")) /\
  (forall e, validate self = Raises e -> connector.start self = Raises e).
Proof.
  unfold connector.start, validate.
  destruct (String.eqb_spec (dingtalk_client_id self) "") as [Hi | Hi];
    [ | destruct (String.eqb_spec (dingtalk_client_secret self) "") as [Hs | Hs] ];
    (split; [split | split; [split |]]).
  - intros _. left. exact Hi.
  - intros _. eexists. split; reflexivity.
  - discriminate.
  - intros [Hne _]. contradiction.
  - intros e He. cbn in He |- *. injection He as <-. reflexivity.
  - intros _. right. exact Hs.
  - intros _. eexists. split; reflexivity.
  - discriminate.
  - intros [_ Hne]. contradiction.
  - intros e He. cbn in He |- *. injection He as <-. reflexivity.
  - intros [e [He _]]. discriminate He.
  - intros [H | H]; contradiction.
  - intros _. split; assumption.
  - reflexivity.
  - intros e He. discriminate He.
Qed.

Lemma consulted_kept env_key v : v <> _UNSET -> consulted env_key v = [].
Proof.
  intros Hv. unfold consulted.
  destruct (String.eqb_spec v _UNSET) as [E | _]; [contradiction | reflexivity].
Qed.

(** C10 (as amended). [MoltbotConnector.__init__] hands every parameter
    to [ConnectorConfig]; for a parameter the caller left out it hands
    over the parameter's own default (the empty string for the
    credentials and the gateway token, the literal defaults for
    [gateway_url] and [model]), which is not the sentinel, so that field's
    environment variable is not read and the field holds the literal
    default. With [from_env()] no variable is read at all and the
    configuration is the one built in an empty environment; for other
    calls no variable is read at all provided that no supplied argument is
    the sentinel's text. When a credential was left out, [validate] and
    [start] raise [ValueError] in every environment. *)
Theorem connector_arguments_shadow_environment environ
    (args : connector.MoltbotConnector_args) :
  let built := connector.MoltbotConnector_init environ args in
  Forall (fun '(attr, (env_key, dflt)) =>
    connector.supplied args attr = None ->
    supplied (connector.config_args args) attr = Some dflt /\
    dflt <> _UNSET /\
    (env_key ∉ snd built) /\
    getattr (fst built) attr = dflt)
  _ENV_DEFAULTS /\
  connector.from_env environ = (fst (connector.from_env ∅), []) /\
  ((forall attr v, connector.supplied args attr = Some v -> v <> _UNSET) ->
   snd built = []) /\
  ((connector.arg_dingtalk_client_id args = None \/
    connector.arg_dingtalk_client_secret args = None) ->
   exists e, validate (fst built) = Raises e /\
             connector.start (fst built) = Raises e /\
             exn_cls e = ValueError).
Proof.
  cbv zeta. unfold connector.from_env, connector.MoltbotConnector_init, ConnectorConfig_init.
  split; [ | split; [ | split ] ].
  - rewrite post_init_fields, post_init_reads.
    destruct args as [i s u m p e t g]. unfold _ENV_DEFAULTS.
    repeat (apply List.Forall_cons;
      [ cbn -[resolve consulted _UNSET]; intros ->;
        cbn -[resolve consulted _UNSET not elem_of];
        split; [reflexivity | split; [discriminate | split; [ | reflexivity ] ] ];
        unfold consulted; cbn -[_UNSET not elem_of];
        repeat match goal with
               | |- context [String.eqb (default ?d ?x) _UNSET] =>
                   destruct (String.eqb (default d x) _UNSET)
               end;
        cbn; rewrite ?elem_of_cons, elem_of_nil; intuition discriminate
      | ]).
    apply List.Forall_nil.
  - apply injective_projections; [reflexivity | ].
    rewrite post_init_reads. reflexivity.
  - intros Hall. rewrite post_init_reads.
    destruct args as [i s u m p e t g]. cbn -[consulted _UNSET].
    assert (Hd : forall (o : option string) (d : string),
               d <> _UNSET -> (forall v, o = Some v -> v <> _UNSET) ->
               default d o <> _UNSET).
    { intros [v |] d Hd Ho; cbn; [apply Ho; reflexivity | exact Hd]. }
    rewrite !consulted_kept; [reflexivity | ..];
      apply Hd; try discriminate; intros v ->.
    + apply (Hall "gateway_token"). reflexivity.
    + apply (Hall "model"). reflexivity.
    + apply (Hall "gateway_url"). reflexivity.
    + apply (Hall "dingtalk_client_secret"). reflexivity.
    + apply (Hall "dingtalk_client_id"). reflexivity.
  - rewrite post_init_fields. unfold connector.start, validate.
    destruct args as [i s u m p e t g].
    cbn [connector.arg_dingtalk_client_id connector.arg_dingtalk_client_secret].
    intros [-> | ->]; cbn -[resolve].
    + eexists. repeat split.
    + destruct (String.eqb _ "") eqn:E; cbn; eexists; repeat split.
Qed.

(** C10, the claim as stated fails: a connector built with every argument
    left out but the model, for which the sentinel's text is passed,
    reads [MOLTBOT_MODEL] and takes the model from it. *)
Lemma connector_sentinel_argument_reads_environment :
  connector.supplied sentinel_model_args "dingtalk_client_id" = None /\
  connector.supplied sentinel_model_args "model" = Some "__UNSET__" /\
  snd (connector.MoltbotConnector_init model_environ sentinel_model_args) =
    ["MOLTBOT_MODEL"] /\
  getattr (fst (connector.MoltbotConnector_init model_environ sentinel_model_args)) "model" =
    "gpt-4o".
Proof.
  split; [ reflexivity | split; [ reflexivity | split ] ]; vm_compute; reflexivity.
Qed.

End config_properties.

(* ===================================================================== *)
(** ** Properties of media.py                                            *)
(* ===================================================================== *)

Section media_properties.

Import media.

Variable json_loads : string -> outcome pyval.

Implicit Types (w : io) (cache : gmap string (pyval * float)).

Local Abbreviation get_token := (get_dingtalk_access_token json_loads).

(** A call that finds an entry whose expiry the clock has not reached
    answers from the cache. *)
Lemma cached_token_returned w cache client_id client_secret token expires_at :
  cache !! client_id = Some (token, expires_at) ->
  (clock_at_check w <? expires_at)%float = true ->
  get_token w cache client_id client_secret =
  {| returned := Returns token; cache_after := cache; requests := [] |}.
Proof.
  intros Hc Ht. unfold get_dingtalk_access_token. rewrite Hc, Ht. reflexivity.
Qed.

(** A call that finds no entry, or one whose expiry the clock has
    reached, goes to the network; what it returns and stores is decided by
    the body of the [try]. *)
Lemma stale_token_fetched w cache client_id client_secret :
  (cache !! client_id = None \/
   exists token expires_at,
     cache !! client_id = Some (token, expires_at) /\
     (clock_at_check w <? expires_at)%float = false) ->
  get_token w cache client_id client_secret =
  match fetch_token json_loads w with
  | Returns (Issued token expires_at) =>
      {| returned := Returns token;
         cache_after := <[client_id := (token, expires_at)]> cache;
         requests := [ {| appkey := client_id; appsecret := client_secret |} ] |}
  | _ =>
      {| returned := Returns PNone; cache_after := cache;
         requests := [ {| appkey := client_id; appsecret := client_secret |} ] |}
  end.
Proof.
  unfold get_dingtalk_access_token.
  intros [Hc | (token & expires_at & Hc & Ht)]; rewrite Hc; [ | rewrite Ht ];
    destruct (fetch_token json_loads w) as [[token' expires' | data] | e]; reflexivity.
Qed.

(** The call made a request exactly when it did not answer from the cache. *)
Lemma fetched_when_stale w cache client_id client_secret :
  requests (get_token w cache client_id client_secret) <> [] ->
  cache !! client_id = None \/
  exists token expires_at,
    cache !! client_id = Some (token, expires_at) /\
    (clock_at_check w <? expires_at)%float = false.
Proof.
  unfold get_dingtalk_access_token.
  destruct (cache !! client_id) as [[token expires_at] | ] eqn:Hc; [ | intros _; left; reflexivity ].
  destruct (clock_at_check w <? expires_at)%float eqn:Ht.
  - cbn. intros H. contradiction.
  - intros _. right. exists token, expires_at. split; [reflexivity | exact Ht].
Qed.


(** No path through [get_dingtalk_access_token] ends in an exception. *)
Lemma token_call_returns w cache client_id client_secret :
  exists v, returned (get_token w cache client_id client_secret) = Returns v.
Proof.
  unfold get_dingtalk_access_token.
  destruct (cache !! client_id) as [[token expires_at] | ];
    [ destruct (clock_at_check w <? expires_at)%float | ];
    try (eexists; reflexivity);
    destruct (fetch_token json_loads w) as [[token' expires' | data] | e];
    eexists; reflexivity.
Qed.

(** C7. [get_dingtalk_access_token] always returns: no exception leaves
    it. When it went to the network and the fetch failed — anything in the
    [try] raised, in particular the request or the decoding of the
    response, or the response carries an [errcode] that does not equal 0 —
    it returns [None] and leaves the cache as it was. *)
Theorem token_fetch_failure_returns_none w cache client_id client_secret :
  let r := get_token w cache client_id client_secret in
  (exists v, returned r = Returns v) /\
  (requests r <> [] ->
   (forall e, fetch_token json_loads w = Raises e ->
      returned r = Returns PNone /\ cache_after r = cache) /\
   (forall e, gettoken w = Raises e ->
      returned r = Returns PNone /\ cache_after r = cache) /\
   (forall resp e, gettoken w = Returns resp -> json_loads (text resp) = Raises e ->
      returned r = Returns PNone /\ cache_after r = cache) /\
   (forall resp data errcode,
      gettoken w = Returns resp -> json_loads (text resp) = Returns data ->
      py_get data "errcode" PNone = Returns errcode -> py_eq_zero errcode = false ->
      returned r = Returns PNone /\ cache_after r = cache)).
Proof.
  cbv zeta. split.
  - apply token_call_returns.
  - intros Hreq. apply fetched_when_stale in Hreq.
    rewrite (stale_token_fetched _ _ _ _ Hreq).
    assert (Hraise : forall e, fetch_token json_loads w = Raises e ->
              returned
                match fetch_token json_loads w with
                | Returns (Issued token expires_at) =>
                    {| returned := Returns token;
                       cache_after := <[client_id := (token, expires_at)]> cache;
                       requests := [ {| appkey := client_id; appsecret := client_secret |} ] |}
                | _ =>
                    {| returned := Returns PNone; cache_after := cache;
                       requests := [ {| appkey := client_id; appsecret := client_secret |} ] |}
                end = Returns PNone /\
              cache_after
                match fetch_token json_loads w with
                | Returns (Issued token expires_at) =>
                    {| returned := Returns token;
                       cache_after := <[client_id := (token, expires_at)]> cache;
                       requests := [ {| appkey := client_id; appsecret := client_secret |} ] |}
                | _ =>
                    {| returned := Returns PNone; cache_after := cache;
                       requests := [ {| appkey := client_id; appsecret := client_secret |} ] |}
                end = cache).
    { intros e He. rewrite He. split; reflexivity. }
    split; [exact Hraise | split; [ | split ] ].
    + intros e He. apply (Hraise e). unfold fetch_token. rewrite He. reflexivity.
    + intros resp e Hresp He. apply (Hraise e).
      unfold fetch_token. rewrite Hresp. cbn [bind]. rewrite He. reflexivity.
    + intros resp data errcode Hresp Hdata Herr Hnz.
      unfold fetch_token. rewrite Hresp. cbn [bind]. rewrite Hdata. cbn [bind].
      rewrite Herr. cbn [bind]. rewrite Hnz. split; reflexivity.
Qed.

End media_properties.

(* ===================================================================== *)
(** ** Properties of handler.py                                          *)
(* ===================================================================== *)

Section handler_properties.

Import config handler.

Variable json_loads : string -> outcome pyval.
Variable py_str : pyval -> string.

Implicit Types (cfg : ConnectorConfig) (w : io) (cache : gmap string (pyval * float)).

Local Abbreviation stream_from_gateway := (_stream_from_gateway json_loads py_str).

(** *** The SSE loop *)

Lemma skipped_line (line : string) :
  String.eqb line "" || negb (String.prefix "data: " line) =
  negb (String.prefix "data: " line).
Proof. destruct line; reflexivity. Qed.

Lemma delta_content_envelope (p : string) (chunk : pyval) :
  json_loads p = Returns chunk -> envelope_shaped chunk = true ->
  delta_content json_loads p = Returns (envelope_content chunk).
Proof.
  intros Hp Hshape. unfold delta_content. rewrite Hp.
  destruct chunk as [ | b | z | f | s | l | d ]; try discriminate Hshape.
  cbn in Hshape |- *.
  destruct (dict_lookup d "choices") as [choices | ]; [ | reflexivity ].
  cbn in Hshape |- *.
  destruct (truthy choices) eqn:Ht;
    [ | destruct choices as [ | b | z | f | s | [ | first rest ] | d' ];
        try discriminate Ht; reflexivity ].
  destruct choices as [ | b | z | f | s | [ | first rest ] | d' ]; try discriminate Hshape.
  destruct first as [ | b | z | f | s | l | fd ]; try discriminate Hshape.
  cbn in Hshape |- *.
  destruct (dict_lookup fd "delta") as [delta | ]; [ | reflexivity ].
  destruct delta as [ | b | z | f | s | l | dd ]; try discriminate Hshape.
  cbn.
  destruct (dict_lookup dd "content") as [c | ]; [ | reflexivity ].
  cbn. destruct (truthy c); reflexivity.
Qed.

Lemma delta_content_undecodable (p : string) (e : exn) :
  json_loads p = Raises e -> delta_content json_loads p = Raises e.
Proof. intros Hp. unfold delta_content. rewrite Hp. reflexivity. Qed.

Lemma payload_marked (line p : string) :
  payload_of line = Some p ->
  String.prefix "data: " line = true /\
  p = String.substring 6 (String.length line - 6) line.
Proof.
  unfold payload_of. destruct (String.prefix "data: " line); [ | discriminate ].
  intros [= <-]. split; reflexivity.
Qed.

Lemma payload_unmarked (line : string) :
  payload_of line = None -> String.prefix "data: " line = false.
Proof.
  unfold payload_of. destruct (String.prefix "data: " line); [ discriminate | reflexivity ].
Qed.

Lemma payloads_cons (line : string) (rest : list string) :
  omap payload_of (line :: rest) =
  match payload_of line with
  | Some p => p :: omap payload_of rest
  | None => omap payload_of rest
  end.
Proof. reflexivity. Qed.

Lemma contents_cons (p : string) (rest : list string) :
  omap (content_of json_loads) (p :: rest) =
  match content_of json_loads p with
  | Some c => c :: omap (content_of json_loads) rest
  | None => omap (content_of json_loads) rest
  end.
Proof. reflexivity. Qed.

(** C3 (as amended). Take the payloads of the [data: ] lines that precede
    the termination marker, and let [json.loads] on each of them either
    raise [JSONDecodeError] or return an envelope. Then the adapter yields
    exactly the [choices[0].delta.content] values of those payloads that
    are there and true (a non-empty string, say), in arrival order; lines
    without the marker and payloads on which [json.loads] raises
    [JSONDecodeError] contribute nothing and do not end the sequence. The
    sequence ends at [data: [DONE]]; without one it ends as the transport
    does. *)
Theorem sse_fragments_in_arrival_order (lines : list string) (failure : option exn) :
  Forall (fun p => frame_ok json_loads p = true) (until_done (omap payload_of lines)) ->
  let out := read_lines json_loads lines failure in
  yielded out = omap (content_of json_loads) (until_done (omap payload_of lines)) /\
  ending out =
    if existsb (String.eqb "[DONE]") (omap payload_of lines) then None else failure.
Proof.
  cbv zeta. induction lines as [ | line rest IH ]; intros Hok.
  - split; reflexivity.
  - rewrite payloads_cons in Hok |- *.
    cbn [read_lines]. rewrite skipped_line.
    destruct (payload_of line) as [p | ] eqn:Hline.
    + apply payload_marked in Hline as [-> Hp]. cbn [negb]. rewrite <- Hp.
      cbn [until_done existsb] in Hok |- *. rewrite (String.eqb_sym "[DONE]" p).
      destruct (String.eqb p "[DONE]") eqn:Hdone; [ split; reflexivity | ].
      cbn [orb]. rewrite contents_cons.
      apply Forall_cons in Hok as [Hok Hrest]. specialize (IH Hrest) as [IHy IHe].
      unfold frame_ok in Hok. unfold content_of at 1.
      destruct (json_loads p) as [chunk | e] eqn:Hload.
      * rewrite (delta_content_envelope p chunk Hload Hok).
        destruct (envelope_content chunk) as [content | ].
        -- cbn [yield yielded ending]. rewrite IHy, IHe. split; reflexivity.
        -- rewrite IHy, IHe. split; reflexivity.
      * rewrite (delta_content_undecodable p e Hload).
        unfold is_decode_error in Hok.
        destruct (exn_cls e); try discriminate Hok.
        rewrite IHy, IHe. split; reflexivity.
    + apply payload_unmarked in Hline as ->. cbn [negb]. apply IH. exact Hok.
Qed.

(** *** The request and the error of a refused one *)

Lemma media_prompt_not_empty (access_token : string) :
  String.eqb (media.media_prompt access_token) "" = false.
Proof. reflexivity. Qed.

(** The messages contributed by the image-upload guidance. *)
Lemma media_messages_guidance cfg w cache :
  let r := media.get_dingtalk_access_token json_loads (token_io w) cache
             (dingtalk_client_id cfg) (dingtalk_client_secret cfg) in
  fst (media_messages json_loads py_str cfg w cache) =
  Returns (if enable_media_upload cfg && truthy (token_of r)
           then [system_message (media.media_prompt (media.format_value py_str (token_of r)))]
           else []).
Proof.
  cbv zeta. unfold media_messages, media.build_media_system_prompt, token_of.
  destruct (enable_media_upload cfg); [ | reflexivity ].
  destruct (token_call_returns json_loads (token_io w) cache
              (dingtalk_client_id cfg) (dingtalk_client_secret cfg)) as [v Hv].
  cbn [fst]. rewrite Hv. cbn [bind andb].
  destruct (truthy v); cbn [negb bind]; [ | reflexivity ].
  rewrite media_prompt_not_empty. reflexivity.
Qed.

Lemma mentions_middle (a x b : string) : mentions (a +:+ x +:+ b) x.
Proof. exists a, b. reflexivity. Qed.

Lemma append_nil_r (a : string) : a +:+ "" = a.
Proof.
  induction a as [ | c a IH ]; [ reflexivity | ].
  change (String c (a +:+ "") = String c a). rewrite IH. reflexivity.
Qed.

Lemma append_assoc (a b c : string) : (a +:+ b) +:+ c = a +:+ b +:+ c.
Proof.
  induction a as [ | x a IH ]; [ reflexivity | ].
  change (String x ((a +:+ b) +:+ c) = String x (a +:+ b +:+ c)). rewrite IH. reflexivity.
Qed.

Lemma mentions_end (a x : string) : mentions (a +:+ x) x.
Proof. exists a, "". rewrite append_nil_r. reflexivity. Qed.

Lemma mentions_nested (a b x1 x2 x3 r : string) :
  mentions (a +:+ b +:+ x1 +:+ x2 +:+ x3 +:+ r) (x1 +:+ x2 +:+ x3).
Proof. exists (a +:+ b), r. rewrite !append_assoc. reflexivity. Qed.

Lemma media_prompt_mentions_upload_url (token : string) :
  mentions (media.media_prompt token) (upload_url token).
Proof. unfold media.media_prompt, upload_url. apply mentions_nested. Qed.

(** C5. When the first response of the chat request has a status other
    than 200, the adapter yields nothing and raises a [RuntimeError] whose
    message is the fixed prefix, the status code in decimal, a colon and
    the response body; the message therefore contains both. *)
Theorem non_200_response_raises cfg w cache (user_content : string) (r : sse_response) :
  gateway w = Response r ->
  status_code r <> 200 ->
  let out := produced (stream_from_gateway cfg w cache user_content) in
  yielded out = [] /\
  exists e, ending out = Some e /\
            exn_cls e = RuntimeError /\
            exn_str e = "Gateway 返回 " +:+ pretty (status_code r) +:+ ": " +:+ body r /\
            mentions (exn_str e) (pretty (status_code r)) /\
            mentions (exn_str e) (body r).
Proof.
  intros Hgw Hstatus. cbv zeta. unfold _stream_from_gateway.
  pose proof (media_messages_guidance cfg w cache) as Hm. cbv zeta in Hm.
  destruct (media_messages json_loads py_str cfg w cache) as [media_part token_call].
  cbn [fst] in Hm. rewrite Hm, Hgw. cbn [produced].
  destruct (Z.eqb_spec (status_code r) 200) as [E | _]; [ contradiction | ].
  cbn [negb failed yielded ending].
  split; [ reflexivity | ].
  eexists. split; [ reflexivity | ].
  cbn [exn_cls exn_str].
  split; [ reflexivity | split; [ reflexivity | split ] ].
  - apply mentions_middle.
  - rewrite <- append_assoc, <- append_assoc. apply mentions_end.
Qed.

(** C8. The adapter always sends a request, and its message list is, in
    this order: the media-upload guidance as a message of role [system],
    present exactly when [enable_media_upload] is set and the token call
    handed back a non-empty token, and then naming the upload address
    with that token; the caller's system prompt as a message of role
    [system], present exactly when it is non-empty; the message of role
    [user] whose content is the user's text, which is always last. In
    particular, when the upload guidance is enabled and the token call
    hands back [None], the list is the system prompt (if any) and the
    user message. *)
Theorem outbound_messages_in_order cfg w cache (user_content : string) :
  let g := stream_from_gateway cfg w cache user_content in
  let r := media.get_dingtalk_access_token json_loads (token_io w) cache
             (dingtalk_client_id cfg) (dingtalk_client_secret cfg) in
  let guidance :=
    if enable_media_upload cfg && truthy (token_of r)
    then [ {| role := "system";
              content := media.media_prompt (media.format_value py_str (token_of r)) |} ]
    else [] in
  let prompt :=
    if negb (String.eqb (system_prompt cfg) "")
    then [ {| role := "system"; content := system_prompt cfg |} ] else [] in
  let user := {| role := "user"; content := user_content |} in
  exists request,
    sent g = Some request /\
    messages (json request) = guidance ++ prompt ++ [user] /\
    last (messages (json request)) = Some user /\
    (enable_media_upload cfg = true -> truthy (token_of r) = true ->
     exists text,
       head (messages (json request)) = Some {| role := "system"; content := text |} /\
       mentions text (upload_url (media.format_value py_str (token_of r)))) /\
    (enable_media_upload cfg = true -> token_of r = PNone ->
     messages (json request) = prompt ++ [user]).
Proof.
  cbv zeta. unfold _stream_from_gateway.
  pose proof (media_messages_guidance cfg w cache) as Hm. cbv zeta in Hm.
  destruct (media_messages json_loads py_str cfg w cache) as [media_part token_call].
  cbn [fst] in Hm. rewrite Hm. cbn [sent].
  eexists. split; [ reflexivity | ]. cbn [json messages].
  split; [ reflexivity | split; [ | split ] ].
  - rewrite !app_assoc. exact (last_snoc _ _).
  - intros -> Ht. rewrite Ht. cbn [andb app head].
    eexists. split; [ reflexivity | ]. apply media_prompt_mentions_upload_url.
  - intros -> ->. reflexivity.
Qed.

(** *** The renderer *)

Lemma joined_cons (f : string) (fs : list string) : joined (f :: fs) = f +:+ joined fs.
Proof. reflexivity. Qed.

(** The card path over string fragments: one update per fragment, each
    with the whole accumulator, then the [except] branch if the run
    raised. *)
Lemma card_stream_strings (accumulated : string) (fs : list string) (stop : option exn) :
  card_stream accumulated (map PStr fs) stop =
  let text := accumulated +:+ joined fs in
  match stop with
  | None =>
      (text, map (fun k => ai_streaming (accumulated +:+ joined (take k fs)))
                 (seq 1 (length fs)))
  | Some e =>
      (fst (interrupted text e),
       map (fun k => ai_streaming (accumulated +:+ joined (take k fs)))
           (seq 1 (length fs)) ++ snd (interrupted text e))
  end.
Proof.
  revert accumulated. induction fs as [ | f fs IH ]; intros accumulated.
  - cbn [map card_stream joined fold_right length seq]. rewrite append_nil_r.
    destruct stop; reflexivity.
  - cbn [map card_stream py_str_iadd length]. rewrite IH. cbv zeta.
    cbn [seq map take]. rewrite <- (seq_shift (length fs) 1), map_map.
    rewrite !joined_cons, <- !append_assoc.
    change (joined (take 0 fs)) with "". rewrite append_nil_r.
    assert (Hk : map (fun k => ai_streaming (accumulated +:+ joined (take (S k) (f :: fs))))
                     (seq 1 (length fs)) =
                 map (fun k => ai_streaming ((accumulated +:+ f) +:+ joined (take k fs)))
                     (seq 1 (length fs))).
    { apply map_ext. intros k. cbn [take]. rewrite joined_cons, append_assoc. reflexivity. }
    rewrite Hk. destruct stop as [e | ]; reflexivity.
Qed.

Lemma no_finish_among_updates (texts : list string) :
  List.filter is_finish (map ai_streaming texts) = [].
Proof. induction texts as [ | t texts IH ]; [ reflexivity | exact IH ]. Qed.

(** The text path over string fragments. *)
Lemma text_stream_strings (full_response : string) (fs : list string) (stop : option exn) :
  text_stream full_response (map PStr fs) stop =
  match stop with
  | None => Returns (full_response +:+ joined fs)
  | Some e => Raises e
  end.
Proof.
  revert full_response. induction fs as [ | f fs IH ]; intros full_response.
  - cbn [map text_stream joined fold_right]. rewrite append_nil_r. reflexivity.
  - cbn [map text_stream py_str_iadd bind]. rewrite IH, joined_cons, append_assoc.
    reflexivity.
Qed.

(** C2 (as amended). In card mode (the payload was read, the card was
    created and has an instance id), let the adapter produce the string
    fragments [fs] and then stop, normally or with an exception. The card receives one
    update per fragment, carrying the accumulator so far; if the adapter
    raised, the error marker with the exception's text is appended and one
    more update follows; the last call is the finish call with the final
    accumulator, and it is the only finish call. *)
Theorem card_mode_updates_then_one_finish cfg (cb : callback) cache
    (user_content : string) (c : card) (fs : list string) (stop : option exn) :
  incoming cb = Returns user_content ->
  card_start cb = Returns (Some c) ->
  truthy (card_instance_id c) = true ->
  produced (stream_from_gateway cfg (gateway_io cb) cache user_content) =
    {| yielded := map PStr fs; ending := stop |} ->
  let final :=
    match stop with
    | None => joined fs
    | Some e => joined fs +:+ nl +:+ nl +:+ "⚠️ 响应中断: " +:+ exn_str e
    end in
  let result := process json_loads py_str cfg cb cache in
  calls result =
    map ai_streaming (accumulators fs) ++
    match stop with None => [] | Some _ => [ai_streaming final] end ++
    [ai_finish final] /\
  length (List.filter is_finish (calls result)) = 1%nat.
Proof.
  intros Hin Hcard Hid Hrun. cbv zeta.
  assert (Hcalls : calls (process json_loads py_str cfg cb cache) =
    map ai_streaming (accumulators fs) ++
    match stop with
    | None => []
    | Some e => [ai_streaming (joined fs +:+ nl +:+ nl +:+ "⚠️ 响应中断: " +:+ exn_str e)]
    end ++
    [ai_finish match stop with
               | None => joined fs
               | Some e => joined fs +:+ nl +:+ nl +:+ "⚠️ 响应中断: " +:+ exn_str e
               end]).
  { unfold process. rewrite Hin, Hcard. cbn [card_ready]. rewrite Hid, Hrun.
    cbn [calls yielded ending]. rewrite card_stream_strings. cbv zeta.
    unfold accumulators. rewrite map_map.
    destruct stop as [e | ]; cbn [interrupted fst snd]; rewrite <- ?app_assoc; reflexivity. }
  split; [ rewrite Hcalls; destruct stop; reflexivity | ].
  rewrite Hcalls, !List.filter_app, no_finish_among_updates.
  destruct stop; reflexivity.
Qed.

(** C9. The acknowledgment is one of two. When the user text could be
    read from the payload it is [(STATUS_OK, "ok")], whatever the gateway
    did; in particular when the run over string fragments ended in an
    exception, whose text then is in the finish call or in the reply.
    When reading the payload raised, it is [STATUS_SYSTEM_EXCEPTION] with
    the exception's text, and no reply call was made. *)
Theorem ack_is_ok_or_system_exception cfg (cb : callback) cache :
  let result := process json_loads py_str cfg cb cache in
  ((exists user_content,
      incoming cb = Returns user_content /\ ack result = (STATUS_OK, "ok")) \/
   (exists e,
      incoming cb = Raises e /\
      ack result = (STATUS_SYSTEM_EXCEPTION, exn_str e) /\
      calls result = [])) /\
  (forall user_content fs e,
     incoming cb = Returns user_content ->
     produced (stream_from_gateway cfg (gateway_io cb) cache user_content) =
       {| yielded := map PStr fs; ending := Some e |} ->
     ack result = (STATUS_OK, "ok") /\
     exists text,
       (ai_finish text ∈ calls result \/ reply_text text ∈ calls result) /\
       mentions text (exn_str e)).
Proof.
  cbv zeta. split.
  - unfold process. destruct (incoming cb) as [user_content | e].
    + left. exists user_content. split; reflexivity.
    + right. exists e. repeat split.
  - intros user_content fs e Hin Hrun. unfold process. rewrite Hin, Hrun.
    cbn [ack calls yielded ending]. split; [ reflexivity | ].
    destruct (card_ready _).
    + rewrite card_stream_strings. cbv zeta. cbn [interrupted fst snd].
      eexists. split.
      * left. rewrite elem_of_app. right. apply list_elem_of_singleton. reflexivity.
      * rewrite <- !append_assoc. apply mentions_end.
    + rewrite text_stream_strings. eexists. split.
      * right. apply list_elem_of_singleton. reflexivity.
      * apply mentions_end.
Qed.

(** X16. The text path: when no card is usable and the run over string
    fragments ends normally, one reply carries the full text, or the
    placeholder when it is empty; when the run raises, one reply carries
    the fixed error message and the exception's text. *)
Lemma text_mode_replies_once cfg (cb : callback) cache
    (user_content : string) (fs : list string) (stop : option exn) :
  incoming cb = Returns user_content ->
  card_ready (match card_start cb with Returns c => c | Raises _ => None end) = false ->
  produced (stream_from_gateway cfg (gateway_io cb) cache user_content) =
    {| yielded := map PStr fs; ending := stop |} ->
  calls (process json_loads py_str cfg cb cache) =
    [reply_text
       match stop with
       | None => if String.eqb (joined fs) "" then "（无响应）" else joined fs
       | Some e => "抱歉，处理请求时出错: " +:+ exn_str e
       end].
Proof.
  intros Hin Hcard Hrun. unfold process. rewrite Hin, Hcard, Hrun.
  cbn [calls yielded ending]. rewrite text_stream_strings.
  destruct stop; reflexivity.
Qed.

End handler_properties.

(* ===================================================================== *)
(** ** Concrete runs                                                      *)
(* ===================================================================== *)

Section concrete_runs.

Import handler.

Local Abbreviation token_request_of_example :=
  {| media.appkey := "dingXXX"; media.appsecret := "secret" |}.

(** C3, the claim as stated fails: a frame that is valid JSON but no
    object ([data: null]) ends the sequence with an [AttributeError],
    and the content of the well-formed frame after it is never yielded. *)
Lemma null_frame_ends_the_stream :
  read_lines pyjson.loads null_frame_lines None =
    {| yielded := [];
       ending := Some (Exn AttributeError "'NoneType' object has no attribute 'get'") |} /\
  omap (content_of pyjson.loads) (until_done (omap payload_of null_frame_lines)) =
    [PStr "x"].
Proof. split; vm_compute; reflexivity. Qed.

(** C3 on [greeting_lines]: the two fragments, in order, and a normal end
    at the termination marker. *)
Lemma sse_fragments_in_arrival_order_run :
  yielded (read_lines pyjson.loads greeting_lines None) = [PStr "Hi"; PStr " there"] /\
  ending (read_lines pyjson.loads greeting_lines None) = None.
Proof.
  assert (Hok : Forall (fun p => frame_ok pyjson.loads p = true)
                  (until_done (omap payload_of greeting_lines))).
  { apply List.Forall_forall. apply forallb_forall. vm_compute. reflexivity. }
  destruct (sse_fragments_in_arrival_order pyjson.loads greeting_lines None Hok) as [Hy He].
  split.
  - rewrite Hy. vm_compute. reflexivity.
  - rewrite He. vm_compute. reflexivity.
Defined.


(** C5 on a 500 response with the body [server error]. *)
Lemma non_200_response_raises_run :
  yielded (produced (_stream_from_gateway pyjson.loads pyjson.str example_config
                       server_error_io ∅ "hello")) = [] /\
  exists e,
    ending (produced (_stream_from_gateway pyjson.loads pyjson.str example_config
                        server_error_io ∅ "hello")) = Some e /\
    exn_cls e = RuntimeError /\
    exn_str e = "Gateway 返回 500: server error" /\
    mentions (exn_str e) "500" /\
    mentions (exn_str e) "server error".
Proof.
  assert (Hstatus : status_code {| status_code := 500; body := "server error"; lines := [];
                                   transport_failure := None |} <> 200) by discriminate.
  destruct (non_200_response_raises pyjson.loads pyjson.str example_config server_error_io ∅
              "hello"
              {| status_code := 500; body := "server error"; lines := [];
                 transport_failure := None |}
              eq_refl Hstatus) as (Hy & e & He & Hcls & Hstr & Hm1 & Hm2).
  split; [ exact Hy | ].
  exists e. split; [ exact He | split; [ exact Hcls | ] ].
  assert (Hp : pretty (500 : Z) = "500") by (vm_compute; reflexivity).
  cbn [status_code body] in Hstr, Hm1, Hm2. rewrite Hp in Hstr, Hm1.
  split; [ | split; assumption ].
  rewrite Hstr. vm_compute. reflexivity.
Defined.

(** C2 on [greeting_callback]: two updates, [Hi] and [Hi there], then one
    finish call with [Hi there]. *)
Lemma card_mode_updates_then_one_finish_run :
  calls (process pyjson.loads pyjson.str example_config greeting_callback ∅) =
    [ai_streaming "Hi"; ai_streaming "Hi there"; ai_finish "Hi there"] /\
  length (List.filter is_finish
            (calls (process pyjson.loads pyjson.str example_config greeting_callback ∅))) =
    1%nat.
Proof.
  assert (Hrun : produced (_stream_from_gateway pyjson.loads pyjson.str example_config
                             (gateway_io greeting_callback) ∅ "hello") =
                 {| yielded := map PStr ["Hi"; " there"]; ending := None |}).
  { vm_compute. reflexivity. }
  destruct (card_mode_updates_then_one_finish pyjson.loads pyjson.str example_config
              greeting_callback ∅ "hello" {| card_instance_id := PStr "card-1" |}
              ["Hi"; " there"] None eq_refl eq_refl eq_refl Hrun) as [Hcalls Hone].
  split; [ | exact Hone ].
  rewrite Hcalls. vm_compute. reflexivity.
Defined.

(** C2, the claim as stated fails: on [number_lines] the adapter yields
    the three fragments [Hi], the number 5 and [ there], and ends
    normally. The card gets an update for the first fragment only; the
    second update carries the error marker, though the adapter did not
    raise, and the finish call carries the same text, without the third
    fragment. *)
Lemma number_fragment_gets_no_update :
  produced (_stream_from_gateway pyjson.loads pyjson.str example_config
              (gateway_io (callback_over a_card (gateway_answer 200 "" number_lines)))
              ∅ "hello") =
    {| yielded := [PStr "Hi"; PInt 5; PStr " there"]; ending := None |} /\
  calls (process pyjson.loads pyjson.str example_config
           (callback_over a_card (gateway_answer 200 "" number_lines)) ∅) =
    [ ai_streaming "Hi";
      ai_streaming ("Hi" +:+ nl +:+ nl +:+ "⚠️ 响应中断: can only concatenate str (not "
                    +:+ dq +:+ "int" +:+ dq +:+ ") to str");
      ai_finish ("Hi" +:+ nl +:+ nl +:+ "⚠️ 响应中断: can only concatenate str (not "
                 +:+ dq +:+ "int" +:+ dq +:+ ") to str") ].
Proof. split; vm_compute; reflexivity. Qed.

(** A 500 from the gateway in card mode: one update with the interruption
    marker that names the status and the body, then one finish call. *)
Example server_error_in_card_mode :
  process pyjson.loads pyjson.str example_config server_error_callback ∅ =
  {| ack := (STATUS_OK, "ok");
     calls :=
       [ ai_streaming (nl +:+ nl +:+ "⚠️ 响应中断: Gateway 返回 500: server error");
         ai_finish (nl +:+ nl +:+ "⚠️ 响应中断: Gateway 返回 500: server error") ];
     run := Some (_stream_from_gateway pyjson.loads pyjson.str example_config
                    server_error_io ∅ "hello") |}.
Proof. vm_compute. reflexivity. Qed.

(** Card creation raises: the fragments are accumulated and sent in one
    reply. *)
Example card_failure_falls_back_to_text :
  calls (process pyjson.loads pyjson.str example_config no_card_callback ∅) =
    [reply_text "Hi there"].
Proof. vm_compute. reflexivity. Qed.

(** A payload that cannot be read: the system-exception acknowledgment
    with the exception's text, and no reply. *)
Example malformed_payload_is_system_exception :
  process pyjson.loads pyjson.str example_config
    {| incoming := Raises (Exn AttributeError
                             "'NoneType' object has no attribute 'content'");
       card_start := Returns None;
       gateway_io := server_error_io |} ∅ =
  {| ack := (STATUS_SYSTEM_EXCEPTION, "'NoneType' object has no attribute 'content'");
     calls := [];
     run := None |}.
Proof. reflexivity. Qed.

(** The request of the greeting run: no guidance message, because the
    token call was refused; the system prompt; the user message. *)
Example refused_token_drops_guidance :
  option_map (fun request => messages (json request))
    (sent (_stream_from_gateway pyjson.loads pyjson.str example_config
             (gateway_io greeting_callback) ∅ "hello")) =
  Some [ {| role := "system"; content := "Be brief." |};
         {| role := "user"; content := "hello" |} ].
Proof. vm_compute. reflexivity. Qed.

(** A refused token request and a request that raises: [None] comes back,
    the cache stays empty, one request was made. *)
Example refused_token_returns_none :
  media.get_dingtalk_access_token pyjson.loads refusing_call ∅ "dingXXX" "secret" =
  {| media.returned := Returns PNone; media.cache_after := ∅;
     media.requests := [token_request_of_example] |}.
Proof. vm_compute. reflexivity. Qed.

Example unreachable_token_endpoint_returns_none :
  media.get_dingtalk_access_token pyjson.loads
    {| media.clock_at_check := 1000%float;
       media.gettoken := Raises (Exn (OtherException "ConnectError") "connection refused");
       media.clock_at_store := 1000%float |} ∅ "dingXXX" "secret" =
  {| media.returned := Returns PNone; media.cache_after := ∅;
     media.requests := [token_request_of_example] |}.
Proof. vm_compute. reflexivity. Qed.

(** With [MOLTBOT_MODEL] set, [ConnectorConfig.from_env()] takes the model
    from the environment, and [MoltbotConnector.from_env()] reads nothing
    and keeps the literal default. *)
Example config_from_env_reads_model :
  config.model (fst (config.from_env model_environ)) = "gpt-4o" /\
  snd (config.from_env model_environ) =
    ["DINGTALK_CLIENT_ID"; "DINGTALK_CLIENT_SECRET"; "MOLTBOT_GATEWAY_URL";
     "MOLTBOT_MODEL"; "MOLTBOT_GATEWAY_TOKEN"].
Proof. split; vm_compute; reflexivity. Qed.

Example connector_from_env_ignores_model :
  config.model (fst (connector.from_env model_environ)) = "default" /\
  snd (connector.from_env model_environ) = [] /\
  connector.start (fst (connector.from_env model_environ)) =
    Raises (Exn ValueError
              ("缺少 dingtalk_client_id，"
               +:+ "请通过构造参数或环境变量 DINGTALK_CLIENT_ID 配置")).
Proof. repeat split; vm_compute; reflexivity. Qed.

End concrete_runs.

(* ===================================================================== *)
(** ** Further properties of config.py, connector.py and quick_start.py  *)
(* ===================================================================== *)

Section further_config_properties.

Import config.

Implicit Types (environ : gmap string string) (cfg : ConnectorConfig).

Lemma gateway_url_set cfg (u : string) : gateway_url (setattr cfg "gateway_url" u) = u.
Proof. destruct cfg. reflexivity. Qed.

Lemma rstrip_slash_slash (s : string) : rstrip_slash (s +:+ "/") = rstrip_slash s.
Proof.
  induction s as [ | c s IH ]; [ reflexivity | ].
  change (String c s +:+ "/") with (String c (s +:+ "/")).
  cbn [rstrip_slash]. rewrite IH. reflexivity.
Qed.

Lemma rstrip_slash_slashes (s : string) (n : nat) :
  rstrip_slash (s +:+ slashes n) = rstrip_slash s.
Proof.
  revert s. induction n as [ | n IH ]; intros s.
  - cbn [slashes]. rewrite append_nil_r. reflexivity.
  - change (slashes (S n)) with ("/" +:+ slashes n).
    rewrite <- append_assoc, IH. apply rstrip_slash_slash.
Qed.

Lemma rstrip_slash_unchanged (s : string) :
  ends_with_slash s = false -> rstrip_slash s = s.
Proof.
  induction s as [ | c s IH ]; [ reflexivity | ].
  destruct s as [ | c' s ].
  - cbn. intros ->. reflexivity.
  - intros H. change (ends_with_slash (String c' s) = false) in H.
    specialize (IH H). cbn [rstrip_slash] in IH |- *. rewrite IH. reflexivity.
Qed.

(** X1. [api_url] does not depend on trailing slashes of the gateway
    address: any number of them appended gives the same URL; an address of
    slashes only gives the bare path; an address that does not end in a
    slash is used as it is. *)
Theorem api_url_ignores_trailing_slashes cfg (u : string) (n : nat) :
  api_url (setattr cfg "gateway_url" (u +:+ slashes n)) =
    api_url (setattr cfg "gateway_url" u) /\
  api_url (setattr cfg "gateway_url" (slashes n)) = "/v1/chat/completions" /\
  (ends_with_slash u = false ->
   api_url (setattr cfg "gateway_url" u) = u +:+ "/v1/chat/completions").
Proof.
  unfold api_url. rewrite !gateway_url_set. split; [ | split ].
  - rewrite rstrip_slash_slashes. reflexivity.
  - change (slashes n) with ("" +:+ slashes n). rewrite rstrip_slash_slashes. reflexivity.
  - intros H. rewrite (rstrip_slash_unchanged u H). reflexivity.
Qed.

Lemma resolve_not_sentinel environ (env_key dflt v : string) :
  os_environ_get environ env_key <> _UNSET -> dflt <> _UNSET ->
  resolve environ env_key dflt v <> _UNSET.
Proof.
  intros Henv Hd. unfold resolve.
  destruct (String.eqb_spec v _UNSET) as [_ | Hv]; [ | exact Hv ].
  destruct (String.eqb (os_environ_get environ env_key) ""); assumption.
Qed.

(** X2. If no environment variable of the table holds the sentinel's
    text, then after construction none of the five fields holds it,
    whatever the arguments were. *)
Theorem no_field_left_unset environ (args : ConnectorConfig_args) :
  Forall (fun '(attr, (env_key, dflt)) => os_environ_get environ env_key <> _UNSET)
    _ENV_DEFAULTS ->
  Forall (fun '(attr, (env_key, dflt)) =>
            getattr (fst (ConnectorConfig_init environ args)) attr <> _UNSET)
    _ENV_DEFAULTS.
Proof.
  unfold _ENV_DEFAULTS. intros Henv.
  repeat match goal with
         | H : Forall _ (_ :: _) |- _ => apply Forall_cons in H as [? H]
         end.
  unfold ConnectorConfig_init. rewrite post_init_fields.
  repeat (apply List.Forall_cons;
          [ cbn -[resolve os_environ_get _UNSET];
            apply resolve_not_sentinel; [ assumption | discriminate ] | ]).
  apply List.Forall_nil.
Qed.

Lemma no_field_left_unset_run :
  Forall (fun '(attr, (env_key, dflt)) =>
            getattr (fst (ConnectorConfig_init model_environ sentinel_args)) attr <> _UNSET)
    _ENV_DEFAULTS.
Proof.
  apply no_field_left_unset.
  repeat (apply List.Forall_cons; [ vm_compute; discriminate | ]).
  apply List.Forall_nil.
Defined.

(** X3. [cli_main] passes no credentials to the connector, so whatever
    the flags and the environment, [start] stops at validation with the
    [ValueError] about the client id. *)
Theorem cli_main_stops_at_validation environ (a : connector.cli_args) :
  connector.cli_main environ a =
  Raises (Exn ValueError
            ("缺少 dingtalk_client_id，"
             +:+ "请通过构造参数或环境变量 DINGTALK_CLIENT_ID 配置")).
Proof.
  unfold connector.cli_main, connector.MoltbotConnector_init, ConnectorConfig_init.
  rewrite post_init_fields. unfold connector.start, validate.
  cbn -[resolve]. reflexivity.
Qed.

End further_config_properties.

Section quick_start_properties.

Import config quick_start.

Implicit Types (environ : gmap string string) (stdin : list string).

(** A value taken from the field's own variable survives construction. *)
Lemma resolve_from_environment environ (env_key dflt : string) :
  os_environ_get environ env_key <> "" ->
  resolve environ env_key dflt (os_environ_get environ env_key) =
  os_environ_get environ env_key.
Proof.
  intros Hne. unfold resolve.
  destruct (String.eqb _ _UNSET); [ | reflexivity ].
  destruct (String.eqb_spec (os_environ_get environ env_key) "") as [E | _];
    [ contradiction | reflexivity ].
Qed.

(** [prompt_input] hands back either a non-empty value that survives
    construction of the field read from [env_key], or an exit. *)
Lemma prompt_input_outcome environ stdin (name env_key dflt : string) (secret : bool) :
  Forall (fun answer => answer <> _UNSET) stdin ->
  match prompt_input environ stdin name env_key secret with
  | (Returns value, _, rest) =>
      value <> "" /\ resolve environ env_key dflt value = value /\
      Forall (fun answer => answer <> _UNSET) rest
  | (Raises e, _, _) => e = SystemExit "1" \/ e = EOFError
  end.
Proof.
  intros Hin. unfold prompt_input.
  destruct (String.eqb_spec (os_environ_get environ env_key) "") as [He | He]; cbn [negb].
  - destruct stdin as [ | answer rest ]; [ right; reflexivity | ].
    apply Forall_cons in Hin as [Ha Hrest].
    destruct (String.eqb_spec answer "") as [E | E]; [ left; reflexivity | ].
    split; [ exact E | split; [ apply resolve_kept; exact Ha | exact Hrest ] ].
  - split; [ exact He | split; [ apply resolve_from_environment; exact He | exact Hin ] ].
Qed.

(** X18. Provided no typed answer is the sentinel's text, [main] of
    quick_start.py never fails validation: either the script ends before
    the connector is built, by [SystemExit(1)] on an empty answer or by
    [EOFError], or [start] goes through its steps with a client id and a
    client secret that are both non-empty. *)
Theorem quick_start_passes_validation environ stdin :
  Forall (fun answer => answer <> _UNSET) stdin ->
  match fst (main environ stdin) with
  | Returns steps =>
      exists client_id client_secret,
        client_id <> "" /\ client_secret <> "" /\
        steps = [ connector.create_client client_id client_secret;
                  connector.register_callback_handler;
                  connector.install_signal_handlers;
                  connector.start_listener_thread ]
  | Raises e => e = SystemExit "1" \/ e = EOFError
  end.
Proof.
  intros Hin. unfold main.
  pose proof (prompt_input_outcome environ stdin "AppKey" "DINGTALK_CLIENT_ID" "" false Hin)
    as H1.
  destruct (prompt_input environ stdin "AppKey" "DINGTALK_CLIENT_ID" false)
    as [[[client_id | e] out1] stdin1]; [ | exact H1 ].
  destruct H1 as (Hid & Hrid & Hin1).
  pose proof (prompt_input_outcome environ stdin1 "AppSecret" "DINGTALK_CLIENT_SECRET" ""
                true Hin1) as H2.
  destruct (prompt_input environ stdin1 "AppSecret" "DINGTALK_CLIENT_SECRET" true)
    as [[[client_secret | e] out2] stdin2]; [ | exact H2 ].
  destruct H2 as (Hsecret & Hrsecret & Hin2).
  unfold ask_gateway_url.
  destruct (String.eqb (os_environ_get environ "MOLTBOT_GATEWAY_URL") ""); cbn [negb];
    [ destruct stdin2 as [ | answer rest ]; [ right; reflexivity | ] | ];
    cbn [fst];
    unfold connector.MoltbotConnector_init, ConnectorConfig_init;
    rewrite post_init_fields; unfold connector.start, validate;
    cbn [dingtalk_client_id dingtalk_client_secret connector.config_args
         arg_dingtalk_client_id arg_dingtalk_client_secret
         connector.arg_dingtalk_client_id connector.arg_dingtalk_client_secret
         default from_option id];
    rewrite Hrid, Hrsecret;
    destruct (String.eqb_spec client_id "") as [E | _]; try contradiction;
    destruct (String.eqb_spec client_secret "") as [E | _]; try contradiction;
    cbn [bind]; exists client_id, client_secret; repeat split; assumption.
Qed.

Lemma quick_start_passes_validation_run :
  match fst (main id_environ typed_answers) with
  | Returns steps =>
      exists client_id client_secret,
        client_id <> "" /\ client_secret <> "" /\
        steps = [ connector.create_client client_id client_secret;
                  connector.register_callback_handler;
                  connector.install_signal_handlers;
                  connector.start_listener_thread ]
  | Raises e => e = SystemExit "1" \/ e = EOFError
  end.
Proof.
  apply quick_start_passes_validation.
  repeat (apply List.Forall_cons; [ discriminate | ]). apply List.Forall_nil.
Defined.

(** The run of the witness: the id comes from the environment, the secret
    is typed, the gateway address is left at its default. *)
Example quick_start_with_id_from_environment :
  fst (main id_environ typed_answers) =
  Returns [ connector.create_client "dingXXX" "secret";
            connector.register_callback_handler;
            connector.install_signal_handlers;
            connector.start_listener_thread ].
Proof. vm_compute. reflexivity. Qed.

(** An empty answer for the client id ends the script with exit status 1. *)
Example quick_start_exits_on_empty_answer :
  fst (main ∅ [ "" ]) = Raises (SystemExit "1").
Proof. vm_compute. reflexivity. Qed.

(** The sentinel's text typed as the client id is dropped by the
    configuration, and [start] fails validation. *)
Example quick_start_sentinel_answer_fails_validation :
  exists e, fst (main ∅ [ "__UNSET__"; "secret"; "" ]) = Raises e /\
            exn_cls e = ValueError.
Proof. eexists. split; vm_compute; reflexivity. Qed.

End quick_start_properties.

(* ===================================================================== *)
(** ** Further properties of media.py                                    *)
(* ===================================================================== *)

Section further_media_properties.

Import media.

Variable json_loads : string -> outcome pyval.
Variable py_str : pyval -> string.

Implicit Types (w : io) (cache : gmap string (pyval * float)).

Local Abbreviation get_token := (get_dingtalk_access_token json_loads).
Local Abbreviation build_prompt := (build_media_system_prompt json_loads py_str).

(** X4. The cache is keyed by the client id alone. A call for one client
    id leaves the entries of every other id as they were, and changes the
    cache, if at all, by storing the token it returns under its own id.
    An entry that is still valid answers a call made with any secret,
    without a request. *)
Theorem token_cache_keyed_by_client_id w cache (client_id client_secret other : string) :
  other <> client_id ->
  let r := get_dingtalk_access_token json_loads w cache client_id client_secret in
  cache_after r !! other = cache !! other /\
  (cache_after r = cache \/
   exists token expires_at,
     returned r = Returns token /\
     cache_after r = <[client_id := (token, expires_at)]> cache) /\
  (forall token expires_at (any_secret : string),
     cache !! client_id = Some (token, expires_at) ->
     (clock_at_check w <? expires_at)%float = true ->
     get_dingtalk_access_token json_loads w cache client_id any_secret =
     {| returned := Returns token; cache_after := cache; requests := [] |}).
Proof.
  intros Hother. cbv zeta. split; [ | split ].
  - unfold get_dingtalk_access_token.
    destruct (cache !! client_id) as [[token expires_at] | ];
      [ destruct (clock_at_check w <? expires_at)%float | ];
      try reflexivity;
      destruct (fetch_token json_loads w) as [[token' expires' | data] | e];
      try reflexivity;
      cbn [cache_after]; apply lookup_insert_ne; congruence.
  - unfold get_dingtalk_access_token.
    destruct (cache !! client_id) as [[token expires_at] | ];
      [ destruct (clock_at_check w <? expires_at)%float | ];
      try (left; reflexivity);
      destruct (fetch_token json_loads w) as [[token' expires' | data] | e];
      try (left; reflexivity);
      right; eexists _, _; split; reflexivity.
  - intros token expires_at any_secret Hc Ht.
    unfold get_dingtalk_access_token. rewrite Hc, Ht. reflexivity.
Qed.

(** X5. [build_media_system_prompt] never raises and hands the token
    call's result on. It returns the empty string when the token call
    handed back nothing usable ([None], the empty string, or any other
    false value); otherwise it returns a non-empty prompt that contains
    the upload address with the formatted token as [access_token]. *)
Theorem media_prompt_follows_token w cache (client_id client_secret : string) :
  let r := get_token w cache client_id client_secret in
  snd (build_prompt w cache client_id client_secret) = r /\
  (truthy (token_of r) = false ->
   fst (build_prompt w cache client_id client_secret) = Returns "") /\
  (truthy (token_of r) = true ->
   exists prompt,
     fst (build_prompt w cache client_id client_secret) = Returns prompt /\
     prompt <> "" /\
     mentions prompt (upload_url (format_value py_str (token_of r)))).
Proof.
  cbv zeta. unfold build_media_system_prompt, token_of. cbn [fst snd].
  destruct (token_call_returns json_loads w cache client_id client_secret) as [v Hv].
  rewrite Hv. cbn [bind].
  split; [ reflexivity | split ].
  - intros ->. reflexivity.
  - intros ->. cbn [negb]. eexists. split; [ reflexivity | split ].
    + intros H. pose proof (media_prompt_not_empty (format_value py_str v)) as Hne.
      rewrite H in Hne. discriminate Hne.
    + apply media_prompt_mentions_upload_url.
Qed.

(** X6. A token response with [errcode] 0 and no [access_token] counts as
    a success: the empty string is returned and stored. The prompt is
    then empty, and stays empty without a new request for every call
    made while the stored entry is valid. *)
Theorem tokenless_response_disables_guidance w1 w2 cache
    (client_id client_secret : string) (resp : http_response)
    (d : list (string * pyval)) (t : float) :
  (cache !! client_id = None \/
   exists token0 expires0,
     cache !! client_id = Some (token0, expires0) /\
     (clock_at_check w1 <? expires0)%float = false) ->
  gettoken w1 = Returns resp ->
  json_loads (text resp) = Returns (PDict d) ->
  py_eq_zero (default PNone (dict_lookup d "errcode")) = true ->
  dict_lookup d "access_token" = None ->
  py_float_add (clock_at_store w1) (default (PInt 7200) (dict_lookup d "expires_in")) =
    Returns t ->
  let first := get_token w1 cache client_id client_secret in
  let stored := <[client_id := (PStr "", (t - 300)%float)]> cache in
  returned first = Returns (PStr "") /\
  cache_after first = stored /\
  fst (build_prompt w1 cache client_id client_secret) = Returns "" /\
  ((clock_at_check w2 <? t - 300)%float = true ->
   build_prompt w2 stored client_id client_secret =
   (Returns "", {| returned := Returns (PStr ""); cache_after := stored; requests := [] |})).
Proof.
  intros Hstale Hresp Hjson Herr Htok Hadd. cbv zeta.
  assert (Hfetch : fetch_token json_loads w1 = Returns (Issued (PStr "") (t - 300)%float)).
  { unfold fetch_token. rewrite Hresp. cbn [bind]. rewrite Hjson. cbn [bind py_get].
    rewrite Herr, Htok. cbn [bind]. rewrite Hadd. reflexivity. }
  assert (Hfirst : get_token w1 cache client_id client_secret =
                   {| returned := Returns (PStr "");
                      cache_after := <[client_id := (PStr "", (t - 300)%float)]> cache;
                      requests := [ {| appkey := client_id; appsecret := client_secret |} ] |}).
  { rewrite (stale_token_fetched json_loads w1 cache client_id client_secret Hstale), Hfetch.
    reflexivity. }
  unfold build_media_system_prompt. rewrite Hfirst. cbn [returned cache_after fst bind].
  split; [ reflexivity | split; [ reflexivity | split; [ reflexivity | ] ] ].
  intros Hearly.
  rewrite (cached_token_returned json_loads w2 _ client_id client_secret (PStr "")
             (t - 300)%float (lookup_insert_eq _ _ _) Hearly).
  reflexivity.
Qed.

End further_media_properties.

Section further_media_runs.

Import media.

Lemma token_cache_keyed_by_client_id_run :
  (let cache : gmap string (pyval * float) := {[ "dingYYY" := (PStr "tok-9", 7901%float) ]} in
   let r := get_dingtalk_access_token pyjson.loads (issuing_call 1000 1001) cache
              "dingXXX" "secret" in
   cache_after r !! "dingYYY" = cache !! "dingYYY" /\
   (cache_after r = cache \/
    exists token expires_at,
      returned r = Returns token /\
      cache_after r = <["dingXXX" := (token, expires_at)]> cache) /\
   (forall token expires_at (any_secret : string),
      cache !! "dingXXX" = Some (token, expires_at) ->
      (clock_at_check (issuing_call 1000 1001) <? expires_at)%float = true ->
      get_dingtalk_access_token pyjson.loads (issuing_call 1000 1001) cache
        "dingXXX" any_secret =
      {| returned := Returns token; cache_after := cache; requests := [] |})) /\
  get_dingtalk_access_token pyjson.loads (issuing_call 5000 5001)
    {[ "dingXXX" := (PStr "tok-1", 7901%float) ]} "dingXXX" "another secret" =
  {| returned := Returns (PStr "tok-1");
     cache_after := {[ "dingXXX" := (PStr "tok-1", 7901%float) ]};
     requests := [] |}.
Proof.
  split.
  - exact (token_cache_keyed_by_client_id pyjson.loads (issuing_call 1000 1001)
             {[ "dingYYY" := (PStr "tok-9", 7901%float) ]} "dingXXX" "secret" "dingYYY"
             ltac:(discriminate)).
  - destruct (token_cache_keyed_by_client_id pyjson.loads (issuing_call 5000 5001)
                {[ "dingXXX" := (PStr "tok-1", 7901%float) ]} "dingXXX" "secret" "dingYYY"
                ltac:(discriminate)) as (_ & _ & Hhit).
    apply (Hhit (PStr "tok-1") 7901%float "another secret"); vm_compute; reflexivity.
Defined.

Lemma tokenless_response_disables_guidance_run :
  returned (get_dingtalk_access_token pyjson.loads (tokenless_call 1000 1001) ∅
              "dingXXX" "secret") = Returns (PStr "") /\
  cache_after (get_dingtalk_access_token pyjson.loads (tokenless_call 1000 1001) ∅
                 "dingXXX" "secret") = {[ "dingXXX" := (PStr "", 7901%float) ]} /\
  fst (build_media_system_prompt pyjson.loads pyjson.str (tokenless_call 1000 1001) ∅
         "dingXXX" "secret") = Returns "" /\
  build_media_system_prompt pyjson.loads pyjson.str (issuing_call 5000 5001)
    {[ "dingXXX" := (PStr "", 7901%float) ]} "dingXXX" "secret" =
  (Returns "",
   {| returned := Returns (PStr "");
      cache_after := {[ "dingXXX" := (PStr "", 7901%float) ]};
      requests := [] |}).
Proof.
  assert (Hstale : (∅ : gmap string (pyval * float)) !! "dingXXX" = None \/
            exists token0 expires0,
              (∅ : gmap string (pyval * float)) !! "dingXXX" = Some (token0, expires0) /\
              (clock_at_check (tokenless_call 1000 1001) <? expires0)%float = false).
  { left. reflexivity. }
  assert (Hjson : pyjson.loads tokenless_body =
                  Returns (PDict [("errcode", PInt 0); ("expires_in", PInt 7200)])).
  { vm_compute. reflexivity. }
  assert (Hadd : py_float_add 1001%float (PInt 7200) = Returns 8201%float).
  { vm_compute. reflexivity. }
  destruct (tokenless_response_disables_guidance pyjson.loads pyjson.str
              (tokenless_call 1000 1001) (issuing_call 5000 5001) ∅ "dingXXX" "secret"
              {| status_code := 200; text := tokenless_body |}
              [("errcode", PInt 0); ("expires_in", PInt 7200)] 8201%float
              Hstale eq_refl Hjson eq_refl eq_refl Hadd)
    as (Hret & Hcache & Hprompt & Hlater).
  assert (Hexp : (8201 - 300)%float = 7901%float) by (vm_compute; reflexivity).
  rewrite Hexp in Hcache, Hlater.
  change (<["dingXXX" := (PStr "", 7901%float)]> (∅ : gmap string (pyval * float)))
    with ({[ "dingXXX" := (PStr "", 7901%float) ]} : gmap string (pyval * float))
    in Hcache, Hlater.
  specialize (Hlater ltac:(vm_compute; reflexivity)).
  split; [ exact Hret | split; [ exact Hcache | split; [ exact Hprompt | exact Hlater ] ] ].
Defined.

(** X5 on an issued token: it appears in the prompt's upload address. *)
Lemma media_prompt_follows_token_run :
  exists prompt,
    fst (build_media_system_prompt pyjson.loads pyjson.str (issuing_call 1000 1001) ∅
           "dingXXX" "secret") = Returns prompt /\
    mentions prompt "https://oapi.dingtalk.com/media/upload?access_token=tok-1&type=image".
Proof.
  destruct (media_prompt_follows_token pyjson.loads pyjson.str (issuing_call 1000 1001) ∅
              "dingXXX" "secret") as (_ & _ & H).
  destruct (H ltac:(vm_compute; reflexivity)) as (prompt & Hp & _ & Hm).
  exists prompt. split; [ exact Hp | ].
  assert (Hu : upload_url
                 (format_value pyjson.str
                    (token_of (get_dingtalk_access_token pyjson.loads (issuing_call 1000 1001)
                                 ∅ "dingXXX" "secret"))) =
               "https://oapi.dingtalk.com/media/upload?access_token=tok-1&type=image")
    by (vm_compute; reflexivity).
  rewrite Hu in Hm. exact Hm.
Defined.

End further_media_runs.

(* ===================================================================== *)
(** ** Further properties of handler.py: the SSE loop                    *)
(* ===================================================================== *)

Section further_sse_properties.

Import config handler.

Variable json_loads : string -> outcome pyval.

Local Abbreviation read := (read_lines json_loads).

(** One turn of the loop, by the payload of the line. *)
Lemma read_lines_step (line : string) (rest : list string) (failure : option exn) :
  read (line :: rest) failure =
  match payload_of line with
  | None => read rest failure
  | Some p =>
      if String.eqb p "[DONE]" then {| yielded := []; ending := None |}
      else
        match delta_content json_loads p with
        | Returns (Some content) => yield content (read rest failure)
        | Returns None => read rest failure
        | Raises e =>
            match exn_cls e with
            | JSONDecodeError => read rest failure
            | _ => {| yielded := []; ending := Some e |}
            end
        end
  end.
Proof.
  cbn [read_lines]. rewrite skipped_line. unfold payload_of.
  destruct (String.prefix "data: " line); reflexivity.
Qed.

Lemma substring_all (s : string) : String.substring 0 (String.length s) s = s.
Proof. induction s as [ | c s IH ]; [ reflexivity | cbn; rewrite IH; reflexivity ]. Qed.

Lemma payload_of_data_line (p : string) : payload_of (data_line p) = Some p.
Proof.
  unfold payload_of, data_line.
  change ("data: " +:+ p)
    with (String "d" (String "a" (String "t" (String "a" (String ":" (String " " p)))))).
  destruct p as [ | c p ]; [ reflexivity | ].
  cbn. rewrite substring_all. destruct (ascii_dec c c); [ reflexivity | contradiction ].
Qed.

(** X7. The result of the loop depends on the lines only through the
    payloads of the [data: ] lines: dropping every other line (blank
    lines, comments, other SSE fields) changes neither the fragments nor
    the way the sequence ends. *)
Theorem only_data_lines_matter (lines : list string) (failure : option exn) :
  read lines failure = read (map data_line (omap payload_of lines)) failure.
Proof.
  induction lines as [ | line rest IH ]; [ reflexivity | ].
  rewrite read_lines_step, payloads_cons.
  destruct (payload_of line) as [p | ]; [ | exact IH ].
  cbn [map]. rewrite read_lines_step, payload_of_data_line, IH. reflexivity.
Qed.

(** X8. Nothing that follows the termination marker is read: the lines
    after [data: [DONE]], and a failure of the transport after them, do
    not change the result. *)
Theorem nothing_after_done_matters (before after : list string) (failure : option exn) :
  read (before ++ "data: [DONE]" :: after) failure =
  read (before ++ ["data: [DONE]"]) None.
Proof.
  induction before as [ | line rest IH ].
  - reflexivity.
  - cbn [app]. rewrite !read_lines_step, IH. reflexivity.
Qed.

(** X9. Fragments that were yielded are never revised: the fragments
    yielded for an initial part of the lines are an initial part of the
    fragments yielded for all of them, however either transport ends. *)
Theorem yielded_fragments_are_final (first_lines more_lines : list string)
    (failure failure' : option exn) :
  yielded (read first_lines failure) `prefix_of`
  yielded (read (first_lines ++ more_lines) failure').
Proof.
  induction first_lines as [ | line rest IH ].
  - apply prefix_nil.
  - cbn [app]. rewrite !read_lines_step.
    destruct (payload_of line) as [p | ]; [ | exact IH ].
    destruct (String.eqb p "[DONE]"); [ reflexivity | ].
    destruct (delta_content json_loads p) as [[content | ] | e].
    + cbn [yield yielded]. apply prefix_cons. exact IH.
    + exact IH.
    + destruct (exn_cls e); try reflexivity. exact IH.
Qed.

(** A payload on which [json.loads] returns a value that is no envelope
    raises in the loop body, and not a decoding error. *)
Lemma ill_shaped_raises (p : string) (chunk : pyval) :
  json_loads p = Returns chunk -> envelope_shaped chunk = false ->
  exists e, delta_content json_loads p = Raises e /\ is_shape_error e = true.
Proof.
  intros Hp Hshape. unfold delta_content. rewrite Hp.
  destruct chunk as [ | b | z | f | s | l | d ];
    try (eexists; split; reflexivity).
  cbn in Hshape |- *.
  destruct (dict_lookup d "choices") as [choices | ]; [ | discriminate Hshape ].
  cbn in Hshape |- *.
  destruct (truthy choices) eqn:Ht; [ | discriminate Hshape ].
  destruct choices as [ | b | z | f | s | [ | first rest ] | d' ];
    try discriminate Ht;
    try (eexists; split; reflexivity).
  - destruct s as [ | c s ]; [ discriminate Ht | ]. eexists; split; reflexivity.
  - destruct first as [ | b | z | f | s | l | fd ];
      try (eexists; split; reflexivity).
    cbn in Hshape |- *.
    destruct (dict_lookup fd "delta") as [delta | ]; [ | discriminate Hshape ].
    destruct delta as [ | b | z | f | s | l | dd ];
      try discriminate Hshape;
      eexists; split; reflexivity.
Qed.

(** X10. A frame on whose payload [json.loads] returns a value that is no
    envelope ends the sequence where it stands: if on every frame before
    it [json.loads] raises [JSONDecodeError] or returns an envelope, and
    none is the termination marker, the adapter yields their contents and
    then raises the [AttributeError], [KeyError] or [TypeError] of the
    loop body; nothing after the frame is read. *)
Theorem ill_shaped_frame_ends_the_stream (before after : list string) (line p : string)
    (chunk : pyval) (failure : option exn) :
  Forall (fun q => frame_ok json_loads q = true) (omap payload_of before) ->
  Forall (fun q => q <> "[DONE]") (omap payload_of before) ->
  payload_of line = Some p ->
  p <> "[DONE]" ->
  json_loads p = Returns chunk ->
  envelope_shaped chunk = false ->
  let out := read (before ++ line :: after) failure in
  yielded out = omap (content_of json_loads) (omap payload_of before) /\
  exists e, ending out = Some e /\
            delta_content json_loads p = Raises e /\
            is_shape_error e = true.
Proof.
  intros Hok Hnot Hline Hp Hload Hshape. cbv zeta.
  destruct (ill_shaped_raises p chunk Hload Hshape) as (e & He & Hcls).
  induction before as [ | l rest IH ].
  - cbn [app omap list_omap]. rewrite read_lines_step, Hline.
    destruct (String.eqb_spec p "[DONE]") as [E | _]; [ contradiction | ].
    rewrite He.
    assert (Hshape_error : is_shape_error e = true) by exact Hcls.
    unfold is_shape_error in Hcls.
    destruct (exn_cls e); try discriminate Hcls;
      (split; [ reflexivity | exists e; repeat split; assumption ]).
  - cbn [app]. rewrite read_lines_step. rewrite payloads_cons in Hok, Hnot |- *.
    destruct (payload_of l) as [q | ]; [ | apply IH; assumption ].
    apply Forall_cons in Hok as [Hq Hok]. apply Forall_cons in Hnot as [Hqd Hnot].
    specialize (IH Hok Hnot) as (IHy & e' & IHe & IHd).
    destruct (String.eqb_spec q "[DONE]") as [E | _]; [ contradiction | ].
    rewrite contents_cons. unfold frame_ok in Hq. unfold content_of at 1.
    destruct (json_loads q) as [qc | qe] eqn:Hqload.
    + rewrite (delta_content_envelope json_loads q qc Hqload Hq).
      destruct (envelope_content qc) as [content | ].
      * cbn [yield yielded ending]. rewrite IHy.
        split; [ reflexivity | exists e'; split; assumption ].
      * split; [ exact IHy | exists e'; split; assumption ].
    + rewrite (delta_content_undecodable json_loads q qe Hqload).
      unfold is_decode_error in Hq. destruct (exn_cls qe); try discriminate Hq.
      split; [ exact IHy | exists e'; split; assumption ].
Qed.

End further_sse_properties.

Section further_sse_runs.

Import handler.

Lemma ill_shaped_frame_ends_the_stream_run :
  yielded (read_lines pyjson.loads
             ([ "data: " +:+ envelope "Hi"; ": keep-alive" ] ++
              "data: null" :: [ "data: " +:+ envelope " there"; "data: [DONE]" ]) None) =
    [PStr "Hi"] /\
  ending (read_lines pyjson.loads
            ([ "data: " +:+ envelope "Hi"; ": keep-alive" ] ++
             "data: null" :: [ "data: " +:+ envelope " there"; "data: [DONE]" ]) None) =
    Some (Exn AttributeError "'NoneType' object has no attribute 'get'").
Proof.
  assert (Hok : Forall (fun q => frame_ok pyjson.loads q = true)
                  (omap payload_of [ "data: " +:+ envelope "Hi"; ": keep-alive" ])).
  { apply List.Forall_forall. apply forallb_forall. vm_compute. reflexivity. }
  assert (Hnot : Forall (fun q => q <> "[DONE]")
                   (omap payload_of [ "data: " +:+ envelope "Hi"; ": keep-alive" ])).
  { assert (Hl : omap payload_of [ "data: " +:+ envelope "Hi"; ": keep-alive" ] =
                 [ envelope "Hi" ]) by (vm_compute; reflexivity).
    rewrite Hl. apply List.Forall_cons; [ vm_compute; discriminate | apply List.Forall_nil ]. }
  destruct (ill_shaped_frame_ends_the_stream pyjson.loads
              [ "data: " +:+ envelope "Hi"; ": keep-alive" ]
              [ "data: " +:+ envelope " there"; "data: [DONE]" ]
              "data: null" "null" PNone None
              Hok Hnot eq_refl ltac:(discriminate) ltac:(vm_compute; reflexivity) eq_refl)
    as (Hy & e & He & Hd & _).
  split.
  - rewrite Hy. vm_compute. reflexivity.
  - rewrite He. f_equal.
    assert (Hraise : delta_content pyjson.loads "null" =
                     Raises (Exn AttributeError "'NoneType' object has no attribute 'get'"))
      by (vm_compute; reflexivity).
    rewrite Hraise in Hd. injection Hd as <-. reflexivity.
Defined.

(** Frames that the loop's [except] clause does not cover. [NaN] is
    accepted by [json.loads] and is no object; on an envelope that carries
    an integer of 4301 digits [json.loads] raises [ValueError], and on a
    frame nested 2000 deep [RecursionError]. Each ends the sequence, and
    the well-formed frame after it is never yielded. *)
Example nan_frame_ends_the_stream :
  read_lines pyjson.loads [ "data: NaN"; "data: " +:+ envelope "x"; "data: [DONE]" ] None =
  {| yielded := [];
     ending := Some (Exn AttributeError "'float' object has no attribute 'get'") |}.
Proof. vm_compute. reflexivity. Qed.

Example long_integer_frame_ends_the_stream :
  read_lines pyjson.loads
    [ "data: " +:+ long_integer_frame; "data: " +:+ envelope "x"; "data: [DONE]" ] None =
  {| yielded := [];
     ending :=
       Some (Exn ValueError
               ("Exceeds the limit (4300 digits) for integer string conversion: "
                +:+ "value has 4301 digits; "
                +:+ "use sys.set_int_max_str_digits() to increase the limit")) |}.
Proof. vm_compute. reflexivity. Qed.

Example nested_frame_ends_the_stream :
  read_lines pyjson.loads
    [ "data: " +:+ nested_frame; "data: " +:+ envelope "x"; "data: [DONE]" ] None =
  {| yielded := [];
     ending :=
       Some (Exn (OtherException "RecursionError")
               ("maximum recursion depth exceeded while decoding a JSON array "
                +:+ "from a unicode string")) |}.
Proof. vm_compute. reflexivity. Qed.

End further_sse_runs.

(* ===================================================================== *)
(** ** Further properties of handler.py: the request and the renderer    *)
(* ===================================================================== *)

Section further_renderer_properties.

Import config handler.

Variable json_loads : string -> outcome pyval.
Variable py_str : pyval -> string.

Implicit Types (cfg : ConnectorConfig) (w : io) (cache : gmap string (pyval * float))
  (cb : callback).

Local Abbreviation stream_from_gateway := (_stream_from_gateway json_loads py_str).
Local Abbreviation handle := (process json_loads py_str).

(** *** The request *)

(** X17. Whatever the token call and the gateway do, the adapter sends
    one request: to [api_url], with the configured model and timeout, in
    streaming mode, with the JSON content type and, exactly when a
    gateway token is configured, that token as bearer authorization. *)
Theorem request_addresses_the_gateway cfg w cache (user_content : string) :
  exists request,
    sent (stream_from_gateway cfg w cache user_content) = Some request /\
    url request = api_url cfg /\
    payload_model (json request) = model cfg /\
    stream (json request) = true /\
    client_timeout request = timeout cfg /\
    headers request =
      ("Content-Type", "application/json") ::
      (if String.eqb (gateway_token cfg) "" then []
       else [("Authorization", "Bearer " +:+ gateway_token cfg)]).
Proof.
  unfold _stream_from_gateway.
  pose proof (media_messages_guidance json_loads py_str cfg w cache) as Hm. cbv zeta in Hm.
  destruct (media_messages json_loads py_str cfg w cache) as [media_part token_call].
  cbn [fst] in Hm. rewrite Hm. cbn [sent].
  eexists. split; [ reflexivity | ].
  cbn [url json payload_model stream client_timeout headers].
  repeat split. destruct (String.eqb (gateway_token cfg) ""); reflexivity.
Qed.

(** What the adapter produces when the gateway cannot be reached, and
    when it answers with a status other than 200. *)
Lemma unreachable_run cfg w cache (user_content : string) (e : exn) :
  gateway w = NoResponse e ->
  produced (stream_from_gateway cfg w cache user_content) = failed e.
Proof.
  intros Hgw. unfold _stream_from_gateway.
  pose proof (media_messages_guidance json_loads py_str cfg w cache) as Hm. cbv zeta in Hm.
  destruct (media_messages json_loads py_str cfg w cache) as [media_part token_call].
  cbn [fst] in Hm. rewrite Hm, Hgw. reflexivity.
Qed.

Lemma refused_run cfg w cache (user_content : string) (r : sse_response) :
  gateway w = Response r -> status_code r <> 200 ->
  produced (stream_from_gateway cfg w cache user_content) = failed (refusal r).
Proof.
  intros Hgw Hstatus. unfold _stream_from_gateway.
  pose proof (media_messages_guidance json_loads py_str cfg w cache) as Hm. cbv zeta in Hm.
  destruct (media_messages json_loads py_str cfg w cache) as [media_part token_call].
  cbn [fst] in Hm. rewrite Hm, Hgw. cbn [produced].
  destruct (Z.eqb_spec (status_code r) 200) as [E | _]; [ contradiction | reflexivity ].
Qed.

(** *** The renderer over arbitrary fragments *)

Lemma prefix_append (a b : string) : String.prefix a (a +:+ b) = true.
Proof.
  induction a as [ | c a IH ]; [ destruct b; reflexivity | ].
  change (String c a +:+ b) with (String c (a +:+ b)). cbn [String.prefix].
  destruct (ascii_dec c c) as [_ | n]; [ exact IH | contradiction ].
Qed.

Lemma prefix_same (a : string) : String.prefix a a = true.
Proof.
  induction a as [ | c a IH ]; [ reflexivity | ].
  cbn [String.prefix]. destruct (ascii_dec c c) as [_ | n]; [ exact IH | contradiction ].
Qed.

Lemma last_text_cons (acc t : string) (texts : list string) :
  default acc (last (t :: texts)) = default t (last texts).
Proof. rewrite last_cons. destruct (last texts); reflexivity. Qed.

(** The card path over any chunks: only updates, each extending the one
    before, and the final accumulator is the text of the last update. *)
Lemma card_stream_shape (accumulated : string) (chunks : list pyval) (stop : option exn) :
  Forall (fun c => is_update c = true) (snd (card_stream accumulated chunks stop)) /\
  each_extends accumulated (map call_text (snd (card_stream accumulated chunks stop))) = true /\
  fst (card_stream accumulated chunks stop) =
    default accumulated (last (map call_text (snd (card_stream accumulated chunks stop)))).
Proof.
  assert (Hint : forall acc e,
            Forall (fun c => is_update c = true) (snd (interrupted acc e)) /\
            each_extends acc (map call_text (snd (interrupted acc e))) = true /\
            fst (interrupted acc e) =
              default acc (last (map call_text (snd (interrupted acc e))))).
  { intros acc e. unfold interrupted. cbn [fst snd map call_text each_extends last default].
    split; [ repeat constructor | split; [ | reflexivity ] ].
    rewrite prefix_append. reflexivity. }
  revert accumulated. induction chunks as [ | chunk rest IH ]; intros accumulated.
  - cbn [card_stream]. destruct stop as [e | ]; [ apply Hint | ].
    split; [ constructor | split; reflexivity ].
  - cbn [card_stream].
    destruct (py_str_iadd accumulated chunk) as [acc' | e] eqn:Hadd; [ | apply Hint ].
    specialize (IH acc') as (IHu & IHx & IHf).
    destruct (card_stream acc' rest stop) as [final updates]. cbn [fst snd] in *.
    split; [ constructor; [ reflexivity | exact IHu ] | split ].
    + cbn [map call_text each_extends]. rewrite IHx, andb_true_r.
      destruct chunk; try discriminate Hadd. injection Hadd as <-. apply prefix_append.
    + cbn [map call_text]. rewrite last_text_cons. exact IHf.
Qed.

Lemma each_extends_last (prev : string) (texts : list string) :
  each_extends prev texts = true ->
  each_extends prev (texts ++ [default prev (last texts)]) = true.
Proof.
  revert prev. induction texts as [ | t texts IH ]; intros prev H.
  - cbn. rewrite prefix_same. reflexivity.
  - cbn [app each_extends] in H |- *. apply andb_true_iff in H as [Ht Hrest].
    rewrite Ht, last_text_cons. cbn [andb]. apply IH. exact Hrest.
Qed.

Lemma updates_are_not_terminal (updates : list platform_call) :
  Forall (fun c => is_update c = true) updates ->
  List.filter is_terminal updates = [].
Proof.
  induction 1 as [ | c updates Hc _ IH ]; [ reflexivity | ].
  cbn [List.filter]. destruct c; try discriminate Hc. exact IH.
Qed.

(** X11. Every message whose text could be read is answered by exactly
    one closing call, and it is the last call: [ai_finish] when a card
    with an instance id is at hand, after updates only, and otherwise a
    single [reply_text] with no other call. This holds for every run of
    the adapter, whatever it yields and however it ends. A message whose
    text could not be read gets no call. *)
Theorem one_closing_call_per_message cfg cb cache :
  match incoming cb with
  | Raises _ => calls (handle cfg cb cache) = []
  | Returns _ =>
      exists updates text,
        calls (handle cfg cb cache) =
          updates ++ [if card_ready (card_of cb) then ai_finish text else reply_text text] /\
        Forall (fun c => is_update c = true) updates /\
        (card_ready (card_of cb) = false -> updates = []) /\
        length (List.filter is_terminal (calls (handle cfg cb cache))) = 1%nat
  end.
Proof.
  unfold process, card_of.
  destruct (incoming cb) as [user_content | e]; [ | reflexivity ].
  cbn [calls].
  set (g := stream_from_gateway cfg (gateway_io cb) cache user_content).
  destruct (card_ready match card_start cb with Returns c => c | Raises _ => None end).
  - pose proof (card_stream_shape "" (yielded (produced g)) (ending (produced g)))
      as (Hu & _ & _).
    destruct (card_stream "" (yielded (produced g)) (ending (produced g)))
      as [final updates]. cbn [snd] in Hu.
    exists updates, final. split; [ reflexivity | split; [ exact Hu | split ] ].
    + discriminate.
    + rewrite List.filter_app, (updates_are_not_terminal updates Hu). reflexivity.
  - destruct (text_stream "" (yielded (produced g)) (ending (produced g))) as [full | e];
      eexists [], _; (split; [ reflexivity | split; [ constructor | split; reflexivity ] ]).
Qed.

(** X12. In card mode the card's text only grows: each call carries a
    text that starts with the text of the call before it, and the finish
    call carries the text of the last update (the empty text when there
    was no update). This holds for every run of the adapter. *)
Theorem card_text_only_grows cfg cb cache (user_content : string) :
  incoming cb = Returns user_content ->
  card_ready (card_of cb) = true ->
  exists updates text,
    calls (handle cfg cb cache) = updates ++ [ai_finish text] /\
    text = default "" (last (map call_text updates)) /\
    each_extends "" (map call_text (calls (handle cfg cb cache))) = true.
Proof.
  intros Hin Hcard. unfold process, card_of in *. rewrite Hin, Hcard. cbn [calls].
  set (g := stream_from_gateway cfg (gateway_io cb) cache user_content).
  pose proof (card_stream_shape "" (yielded (produced g)) (ending (produced g)))
    as (_ & Hx & Hf).
  destruct (card_stream "" (yielded (produced g)) (ending (produced g)))
    as [final updates]. cbn [fst snd] in Hx, Hf.
  exists updates, final. split; [ reflexivity | split; [ exact Hf | ] ].
  rewrite map_app. cbn [map call_text]. rewrite Hf. apply each_extends_last. exact Hx.
Qed.

End further_renderer_properties.

Section failure_rendering_properties.

Import config handler.

Variable json_loads : string -> outcome pyval.
Variable py_str : pyval -> string.

Implicit Types (cfg : ConnectorConfig) (w : io) (cache : gmap string (pyval * float))
  (cb : callback).

Local Abbreviation stream_from_gateway := (_stream_from_gateway json_loads py_str).
Local Abbreviation handle := (process json_loads py_str).

(** String fragments followed by further chunks: the card path updates
    once per string and goes on from the joined accumulator. *)
Lemma card_stream_after_strings (accumulated : string) (fs : list string)
    (more : list pyval) (stop : option exn) :
  card_stream accumulated (map PStr fs ++ more) stop =
  (fst (card_stream (accumulated +:+ joined fs) more stop),
   map (fun k => ai_streaming (accumulated +:+ joined (take k fs))) (seq 1 (length fs)) ++
   snd (card_stream (accumulated +:+ joined fs) more stop)).
Proof.
  revert accumulated. induction fs as [ | f fs IH ]; intros accumulated.
  - cbn [map app joined fold_right length seq]. rewrite append_nil_r.
    destruct (card_stream accumulated more stop). reflexivity.
  - cbn [map app card_stream py_str_iadd length]. rewrite IH.
    cbn [seq map take]. rewrite <- (seq_shift (length fs) 1), map_map.
    rewrite !joined_cons, <- !append_assoc.
    change (joined (take 0 fs)) with "". rewrite append_nil_r.
    assert (Hk : map (fun k => ai_streaming (accumulated +:+ joined (take (S k) (f :: fs))))
                     (seq 1 (length fs)) =
                 map (fun k => ai_streaming ((accumulated +:+ f) +:+ joined (take k fs)))
                     (seq 1 (length fs))).
    { apply map_ext. intros k. cbn [take]. rewrite joined_cons, append_assoc. reflexivity. }
    rewrite Hk. reflexivity.
Qed.

Lemma text_stream_after_strings (full_response : string) (fs : list string)
    (more : list pyval) (stop : option exn) :
  text_stream full_response (map PStr fs ++ more) stop =
  text_stream (full_response +:+ joined fs) more stop.
Proof.
  revert full_response. induction fs as [ | f fs IH ]; intros full_response.
  - cbn [map app joined fold_right]. rewrite append_nil_r. reflexivity.
  - cbn [map app text_stream py_str_iadd bind]. rewrite IH, joined_cons, append_assoc.
    reflexivity.
Qed.

Lemma iadd_non_string (accumulated : string) (v : pyval) :
  type_name v <> "str" -> py_str_iadd accumulated v = Raises (not_a_string v).
Proof. intros Hv. destruct v; try reflexivity. contradiction Hv. reflexivity. Qed.

(** X13. A fragment that is no string (a number, say, as [content])
    interrupts the reply like a gateway failure: after the string
    fragments before it, the [TypeError] of the concatenation is shown,
    in the card as one more update and the finish call, in text mode as
    the only reply; the fragments after it are dropped. *)
Theorem non_string_fragment_interrupts cfg cb cache (user_content : string)
    (fs : list string) (v : pyval) (dropped : list pyval) (stop : option exn) :
  incoming cb = Returns user_content ->
  type_name v <> "str" ->
  produced (stream_from_gateway cfg (gateway_io cb) cache user_content) =
    {| yielded := map PStr fs ++ v :: dropped; ending := stop |} ->
  calls (handle cfg cb cache) =
    if card_ready (card_of cb) then
      map ai_streaming (accumulators fs) ++
      [ ai_streaming (joined fs +:+ interruption (not_a_string v));
        ai_finish (joined fs +:+ interruption (not_a_string v)) ]
    else [ reply_text (apology (not_a_string v)) ].
Proof.
  intros Hin Hv Hrun. unfold process, card_of. rewrite Hin, Hrun.
  cbn [calls yielded ending].
  destruct (card_ready _).
  - rewrite card_stream_after_strings. cbn [card_stream fst snd].
    rewrite iadd_non_string by exact Hv.
    cbn [interrupted fst snd]. unfold accumulators. rewrite map_map, <- app_assoc.
    reflexivity.
  - rewrite text_stream_after_strings. cbn [text_stream].
    rewrite iadd_non_string by exact Hv. reflexivity.
Qed.

(** The calls for a run that raised before its first fragment. *)
Lemma failure_before_first_fragment cfg cb cache (user_content : string) (e : exn) :
  incoming cb = Returns user_content ->
  produced (stream_from_gateway cfg (gateway_io cb) cache user_content) = failed e ->
  ack (handle cfg cb cache) = (STATUS_OK, "ok") /\
  calls (handle cfg cb cache) =
    if card_ready (card_of cb)
    then [ ai_streaming (interruption e); ai_finish (interruption e) ]
    else [ reply_text (apology e) ].
Proof.
  intros Hin Hrun. unfold process, card_of. rewrite Hin, Hrun.
  split; [ reflexivity | ]. cbn [calls failed yielded ending].
  destruct (card_ready _); reflexivity.
Qed.

(** X14. A response with a status other than 200 is reported to the user
    and acknowledged as OK: the card gets one update and the finish call,
    both with the interruption marker followed by the status and the
    body; without a card, one reply carries the apology followed by
    them. *)
Theorem refused_request_is_reported cfg cb cache (user_content : string) (r : sse_response) :
  incoming cb = Returns user_content ->
  gateway (gateway_io cb) = Response r ->
  status_code r <> 200 ->
  ack (handle cfg cb cache) = (STATUS_OK, "ok") /\
  calls (handle cfg cb cache) =
    if card_ready (card_of cb)
    then [ ai_streaming (interruption (refusal r)); ai_finish (interruption (refusal r)) ]
    else [ reply_text (apology (refusal r)) ].
Proof.
  intros Hin Hgw Hstatus.
  apply (failure_before_first_fragment cfg cb cache user_content (refusal r) Hin).
  apply refused_run; assumption.
Qed.

(** X15. When the gateway cannot be reached, the request was still built
    and handed to the client, its last message being the one of role
    [user] with the user's text; the adapter yields nothing and raises
    the transport's exception, and the handler reports its text to the
    user and acknowledges OK. *)
Theorem unreachable_gateway_is_reported cfg cb cache (user_content : string) (e : exn) :
  incoming cb = Returns user_content ->
  gateway (gateway_io cb) = NoResponse e ->
  (exists request,
     sent (stream_from_gateway cfg (gateway_io cb) cache user_content) = Some request /\
     last (messages (json request)) =
       Some {| role := "user"; content := user_content |}) /\
  produced (stream_from_gateway cfg (gateway_io cb) cache user_content) =
    {| yielded := []; ending := Some e |} /\
  ack (handle cfg cb cache) = (STATUS_OK, "ok") /\
  calls (handle cfg cb cache) =
    if card_ready (card_of cb)
    then [ ai_streaming (interruption e); ai_finish (interruption e) ]
    else [ reply_text (apology e) ].
Proof.
  intros Hin Hgw.
  pose proof (unreachable_run json_loads py_str cfg (gateway_io cb) cache user_content e Hgw)
    as Hrun.
  split; [ | split; [ exact Hrun | ] ].
  - unfold _stream_from_gateway.
    pose proof (media_messages_guidance json_loads py_str cfg (gateway_io cb) cache) as Hm.
    cbv zeta in Hm.
    destruct (media_messages json_loads py_str cfg (gateway_io cb) cache)
      as [media_part token_call].
    cbn [fst] in Hm. rewrite Hm. cbn [sent]. eexists. split; [ reflexivity | ].
    cbn [json messages]. rewrite !app_assoc. exact (last_snoc _ _).
  - apply (failure_before_first_fragment cfg cb cache user_content e Hin Hrun).
Qed.

End failure_rendering_properties.

Section further_renderer_runs.

Import handler.

Local Abbreviation run_over card_start gateway :=
  (process pyjson.loads pyjson.str example_config (callback_over card_start gateway) ∅).

Lemma card_text_only_grows_run :
  exists updates text,
    calls (run_over a_card (gateway_answer 200 "" greeting_lines)) =
      updates ++ [ai_finish text] /\
    text = default "" (last (map call_text updates)) /\
    each_extends ""
      (map call_text (calls (run_over a_card (gateway_answer 200 "" greeting_lines)))) = true.
Proof.
  exact (card_text_only_grows pyjson.loads pyjson.str example_config
           (callback_over a_card (gateway_answer 200 "" greeting_lines)) ∅ "hello"
           eq_refl eq_refl).
Defined.

Lemma non_string_fragment_interrupts_run :
  calls (run_over a_card (gateway_answer 200 "" number_lines)) =
    [ ai_streaming "Hi";
      ai_streaming ("Hi" +:+ interruption (not_a_string (PInt 5)));
      ai_finish ("Hi" +:+ interruption (not_a_string (PInt 5))) ].
Proof.
  assert (Hrun : produced (_stream_from_gateway pyjson.loads pyjson.str example_config
                             (gateway_io (callback_over a_card
                                            (gateway_answer 200 "" number_lines)))
                             ∅ "hello") =
                 {| yielded := map PStr ["Hi"] ++ PInt 5 :: [PStr " there"];
                    ending := None |}).
  { vm_compute. reflexivity. }
  rewrite (non_string_fragment_interrupts pyjson.loads pyjson.str example_config
             (callback_over a_card (gateway_answer 200 "" number_lines)) ∅ "hello"
             ["Hi"] (PInt 5) [PStr " there"] None eq_refl ltac:(discriminate) Hrun).
  vm_compute. reflexivity.
Defined.

Lemma refused_request_is_reported_run :
  ack (run_over idle_card (gateway_answer 500 "server error" [])) = (STATUS_OK, "ok") /\
  calls (run_over idle_card (gateway_answer 500 "server error" [])) =
    [ reply_text "抱歉，处理请求时出错: Gateway 返回 500: server error" ].
Proof.
  destruct (refused_request_is_reported pyjson.loads pyjson.str example_config
              (callback_over idle_card (gateway_answer 500 "server error" [])) ∅ "hello"
              {| status_code := 500; body := "server error"; lines := [];
                 transport_failure := None |}
              eq_refl eq_refl ltac:(discriminate)) as [Hack Hcalls].
  split; [ exact Hack | ].
  rewrite Hcalls. vm_compute. reflexivity.
Defined.

Lemma unreachable_gateway_is_reported_run :
  calls (run_over a_card (NoResponse connect_error)) =
    [ ai_streaming (interruption connect_error); ai_finish (interruption connect_error) ].
Proof.
  destruct (unreachable_gateway_is_reported pyjson.loads pyjson.str example_config
              (callback_over a_card (NoResponse connect_error)) ∅ "hello" connect_error
              eq_refl eq_refl) as (_ & _ & _ & Hcalls).
  rewrite Hcalls. reflexivity.
Defined.

Lemma text_mode_replies_once_run :
  calls (process pyjson.loads pyjson.str example_config no_card_callback ∅) =
    [ reply_text "Hi there" ].
Proof.
  assert (Hrun : produced (_stream_from_gateway pyjson.loads pyjson.str example_config
                             (gateway_io no_card_callback) ∅ "hello") =
                 {| yielded := map PStr ["Hi"; " there"]; ending := None |}).
  { vm_compute. reflexivity. }
  rewrite (text_mode_replies_once pyjson.loads pyjson.str example_config no_card_callback ∅
             "hello" ["Hi"; " there"] None eq_refl eq_refl Hrun).
  vm_compute. reflexivity.
Defined.

(** A card handle without an instance id is treated like no card. *)
Example card_without_instance_id_falls_back_to_text :
  calls (run_over idle_card (gateway_answer 200 "" greeting_lines)) =
    [ reply_text "Hi there" ].
Proof. vm_compute. reflexivity. Qed.

(** A stream without any content gets the placeholder reply. *)
Example empty_stream_gets_placeholder :
  calls (run_over idle_card (gateway_answer 200 "" [ "data: [DONE]" ])) =
    [ reply_text "（无响应）" ].
Proof. vm_compute. reflexivity. Qed.

End further_renderer_runs.

Section environment_reads.

Import config.

(** X19. Construction reads the environment only for what is missing:
    the variable of a field whose argument was supplied (and is not the
    sentinel's text) is not read, the variable of a field whose argument
    was left out is read, and no variable is read twice. *)
Theorem environment_read_for_missing_arguments_only (environ : gmap string string)
    (args : ConnectorConfig_args) :
  Forall (fun '(attr, (env_key, dflt)) =>
    (forall v, supplied args attr = Some v -> v <> _UNSET ->
               env_key ∉ snd (ConnectorConfig_init environ args)) /\
    (supplied args attr = None -> env_key ∈ snd (ConnectorConfig_init environ args)))
  _ENV_DEFAULTS /\
  NoDup (snd (ConnectorConfig_init environ args)).
Proof.
  unfold ConnectorConfig_init. rewrite post_init_reads.
  destruct args as [i s u m p e t g].
  cbn [dingtalk_client_id dingtalk_client_secret gateway_url model gateway_token].
  split.
  - unfold _ENV_DEFAULTS.
    repeat (apply List.Forall_cons;
      [ cbn -[consulted _UNSET not elem_of]; split;
        [ intros v -> Hv; cbn [default from_option id];
          rewrite (consulted_kept _ v Hv); unfold consulted;
          repeat match goal with
                 | |- context [String.eqb ?x _UNSET] => destruct (String.eqb x _UNSET)
                 end;
          cbn [app]; rewrite ?elem_of_cons, elem_of_nil; intuition discriminate
        | intros ->; cbn [default from_option id]; unfold consulted;
          rewrite String.eqb_refl;
          repeat match goal with
                 | |- context [String.eqb ?x _UNSET] => destruct (String.eqb x _UNSET)
                 end;
          cbn [app]; rewrite ?elem_of_cons; auto 10 ]
      | ]).
    apply List.Forall_nil.
  - unfold consulted.
    repeat match goal with
           | |- context [String.eqb ?x _UNSET] => destruct (String.eqb x _UNSET)
           end;
      cbn [app]; apply (bool_decide_unpack _); vm_compute; exact I.
Qed.

End environment_reads.
